(** * koli: reconciliation controllers, task queue and add-on catalog

    A shallow embedding of [pkg/spec/spec.go] and of the controller
    package ([AppManagerController], [ReleaseController], [TaskQueue],
    [CreateCRD]) together with the properties the specification states
    about them.

    Calls that leave the process (control-plane requests, recorded
    events, log lines, metrics, work-queue operations) are nodes of a
    small free monad; a run against an arbitrary handler yields the
    result and the list of calls with the answers they got. *)

From Stdlib Require Import String Ascii List ZArith Lia Bool DecimalString.
From stdpp Require Import base gmap strings list.

Set Implicit Arguments.
Local Open Scope string_scope.
Local Open Scope list_scope.

(* ===================================================================== *)
(** * Go runtime pieces the code relies on *)
(* ===================================================================== *)

Module Go.

(** The double-quote byte, for the raw string literals of the source. *)
Definition dq : string := String "034"%char EmptyString.

(** [q s] is [s] between double quotes. *)
Definition q (s : string) : string := dq +:+ s +:+ dq.

(** Go's [error]: the message of [Error()] and whether
    [apierrors.IsAlreadyExists] holds of it. [None] is [nil]. *)
Record error : Type := mkError {
  IsAlreadyExists : bool;
  Error : string
}.

(** [fmt.Sprintf] for the verbs the program uses ([%s], [%v], [%d] with
    the operand already rendered as text, and [%%]).  A verb without an
    operand prints as Go does, [%!v(MISSING)]. *)
Fixpoint Sprintf (format : string) (args : list string) : string :=
  match format with
  | EmptyString => EmptyString
  | String c rest =>
      if Ascii.eqb c "%"%char then
        match rest with
        | EmptyString => "%!(NOVERB)"
        | String v rest' =>
            if Ascii.eqb v "%"%char then String "%"%char (Sprintf rest' args)
            else match args with
                 | a :: args' => a +:+ Sprintf rest' args'
                 | [] => "%!" +:+ String v ("(MISSING)" +:+ Sprintf rest' [])
                 end
        end
      else String c (Sprintf rest args)
  end.

(** [fmt.Errorf]: a plain error, never an "already exists" status. *)
Definition Errorf (format : string) (args : list string) : error :=
  mkError false (Sprintf format args).

(** [strings.Split(s, sep)] for a one-byte separator. *)
Fixpoint Split (s : string) (sep : ascii) : list string :=
  match s with
  | EmptyString => [EmptyString]
  | String c rest =>
      if Ascii.eqb c sep then EmptyString :: Split rest sep
      else match Split rest sep with
           | hd :: tl => String c hd :: tl
           | [] => [String c EmptyString]
           end
  end.

(** Whether byte [c] occurs in [s]. *)
Fixpoint hasByte (c : ascii) (s : string) : bool :=
  match s with
  | EmptyString => false
  | String c' rest => Ascii.eqb c' c || hasByte c rest
  end.

(** [err != nil] *)
Definition notNil (e : option error) : bool :=
  match e with Some _ => true | None => false end.

(** [apierrors.IsAlreadyExists(err)], false on [nil]. *)
Definition isAlreadyExists (e : option error) : bool :=
  match e with Some e' => IsAlreadyExists e' | None => false end.

(** The text [%v] prints for an error value; the program prints errors
    it has found not to be nil, for which [%s] prints the same. *)
Definition errText (e : option error) : string :=
  match e with Some e' => Error e' | None => "<nil>" end.

(** The text [%d] prints for an integer. *)
Definition itoa (z : Z) : string := NilZero.string_of_int (Z.to_int z).

End Go.

(* ===================================================================== *)
(** * pkg/spec/spec.go: the add-on catalog *)
(* ===================================================================== *)

Module Spec.
Import Go.

(** The add-ons types implemented so far *)
Definition redis : string := "redis".
Definition memcached : string := "memcached".
Definition mySQL : string := "mysql".

(** [AddonSpec]; [Replicas] and [Port] are [int32]. *)
Record AddonSpec : Type := mkAddonSpec {
  Type_ : string;
  BaseImage : string;
  Version : string;
  Replicas : Z;
  Port : Z;
  Env : list (string * string);
  Args : list string
}.

Record Addon : Type := mkAddon {
  AddonName : string;
  AddonNamespace : string;
  AddonSpec_ : AddonSpec
}.

Section WithClient.
(** [*kubernetes.Clientset] and [cache.SharedIndexInformer] are only
    stored by [GetApp]. *)
Variables (Clientset SharedIndexInformer : Type).

(** The implementations of [AddonInterface]; each is a struct holding
    the client, the add-on and the informer. *)
Inductive AddonInterface : Type :=
| Redis (client : Clientset) (addon : Addon) (psetInf : SharedIndexInformer)
| Memcached (client : Clientset) (addon : Addon) (psetInf : SharedIndexInformer).

(** [GetImage]: defaults the stored version to [latest], then joins
    image and version. The updated add-on is returned with the text. *)
Definition GetImage (a : Addon) : string * Addon :=
  let sp := AddonSpec_ a in
  let a' :=
    if String.eqb (Version sp) EmptyString
    then mkAddon (AddonName a) (AddonNamespace a)
           (mkAddonSpec (Type_ sp) (BaseImage sp) "latest" (Replicas sp)
              (Port sp) (Env sp) (Args sp))
    else a in
  (Sprintf "%s:%s" [BaseImage (AddonSpec_ a'); Version (AddonSpec_ a')], a').

(** [GetReplicas]: a size below 1 is overwritten with 1. *)
Definition GetReplicas (a : Addon) : Z * Addon :=
  let sp := AddonSpec_ a in
  let a' :=
    if (Replicas sp <? 1)%Z
    then mkAddon (AddonName a) (AddonNamespace a)
           (mkAddonSpec (Type_ sp) (BaseImage sp) (Version sp) 1
              (Port sp) (Env sp) (Args sp))
    else a in
  (Replicas (AddonSpec_ a'), a').

(** [GetApp]: the [switch] returns inside the [redis] and [memcached]
    cases; the [mySQL] case has an empty body and, like every other
    value, leaves the switch and reaches the final [return]. *)
Definition GetApp (a : Addon) (c : Clientset) (psetInf : SharedIndexInformer)
  : option AddonInterface * option error :=
  let ty := Type_ (AddonSpec_ a) in
  if String.eqb ty redis then (Some (Redis c a psetInf), None)
  else if String.eqb ty memcached then (Some (Memcached c a psetInf), None)
  else if String.eqb ty mySQL then
    (None, Some (Errorf "invalid add-on type (%s)" [ty]))
  else (None, Some (Errorf "invalid add-on type (%s)" [ty])).

End WithClient.

End Spec.

(* ===================================================================== *)
(** * Control-plane objects the controllers read and write *)
(* ===================================================================== *)

Module K8s.

(** [resource.Quantity], in its canonical text form. *)
Definition Quantity : Type := string.

(** [v1.ResourceRequirements] of a container; [None] is a nil list. *)
Record Container : Type := mkContainer {
  Requests : option (gmap string Quantity);
  Limits : option (gmap string Quantity)
}.

(** [v1beta1.Deployment], with the fields the controllers read. *)
Record Deployment : Type := mkDeployment {
  dpNamespace : string;
  dpName : string;
  dpUID : string;
  dpResourceVersion : string;
  dpGeneration : Z;
  dpObservedGeneration : Z;
  dpLabels : gmap string string;
  dpAnnotations : gmap string string;
  dpDeletionTimestamp : option Z;
  dpContainers : list Container
}.

(** Indexing a Go [map[string]string]: the zero value when absent. *)
Definition index (m : gmap string string) (k : string) : string :=
  match m !! k with Some v => v | None => EmptyString end.

Record OwnerReference : Type := mkOwnerReference {
  orAPIVersion : string;
  orKind : string;
  orController : option bool;
  orName : string;
  orUID : string
}.

Record ServicePort : Type := mkServicePort {
  spName : string;
  spPort : Z;
  spProtocol : string;
  spTargetPort : Z
}.

Record Service : Type := mkService {
  svcNamespace : string;
  svcName : string;
  svcLabels : gmap string string;
  svcOwnerReferences : list OwnerReference;
  svcPorts : list ServicePort;
  svcSelector : gmap string string
}.

Record HTTPIngressPath : Type := mkHTTPIngressPath {
  ipServiceName : string;
  ipServicePort : Z;
  ipPath : string
}.

Record IngressRule : Type := mkIngressRule {
  irHost : string;
  irPaths : list HTTPIngressPath
}.

Record Ingress : Type := mkIngress {
  ingNamespace : string;
  ingName : string;
  ingAnnotations : gmap string string;
  ingLabels : gmap string string;
  ingOwnerReferences : list OwnerReference;
  ingRules : list IngressRule
}.

Inductive PersistentVolumeAccessMode : Type :=
| ReadWriteOnce | ReadOnlyMany | ReadWriteMany.

Record PersistentVolumeClaim : Type := mkPVC {
  pvcName : string;
  pvcNamespace : string;
  pvcAccessModes : list PersistentVolumeAccessMode;
  pvcRequests : gmap string Quantity
}.

(** [v1.ResourceStorage] *)
Definition ResourceStorage : string := "storage".

Inductive PatchType : Type :=
| JSONPatchType | MergePatchType | StrategicMergePatchType.

Inductive EventType : Type := EventTypeNormal | EventTypeWarning.

(** Condition of a custom resource definition. *)
Inductive CRDConditionType : Type :=
| Established | NamesAccepted | Terminating.

Inductive ConditionStatus : Type :=
| ConditionTrue | ConditionFalse | ConditionUnknown.

Record CRDCondition : Type := mkCRDCondition {
  condType : CRDConditionType;
  condStatus : ConditionStatus;
  condReason : string
}.

Inductive ResourceScope : Type := ClusterScoped | NamespaceScoped.

Record CustomResourceDefinition : Type := mkCRD {
  crdName : string;
  crdGroup : string;
  crdVersion : string;
  crdScope : ResourceScope;
  crdPlural : string;
  crdKind : string;
  crdConditions : list CRDCondition
}.

(** The JSON merge patch document that sets one annotation. *)
Definition annotationPatch (key val : string) : string :=
  "{" +:+ Go.q "metadata" +:+ ": {" +:+ Go.q "annotations" +:+ ": {"
  +:+ Go.q key +:+ ": " +:+ Go.q val +:+ "}}}".

(** What the API server makes of a deployment when it applies that
    patch. *)
Definition withAnnotation (key val : string) (d : Deployment) : Deployment :=
  {| dpNamespace := dpNamespace d;
     dpName := dpName d;
     dpUID := dpUID d;
     dpResourceVersion := dpResourceVersion d;
     dpGeneration := dpGeneration d;
     dpObservedGeneration := dpObservedGeneration d;
     dpLabels := dpLabels d;
     dpAnnotations := <[ key := val ]> (dpAnnotations d);
     dpDeletionTimestamp := dpDeletionTimestamp d;
     dpContainers := dpContainers d |}.

(** What a store's [GetByKey] hands back: [(obj, exists, err)]. *)
Inductive Lookup (A : Type) : Type :=
| Found (obj : A)
| NotFound
| LookupFailed (err : Go.error).
Arguments NotFound {A}.
Arguments LookupFailed {A} err.

(** A [cache.Store] as the controllers use it: point lookup and the
    objects [cache.ListAll] visits with [labels.Everything()]. *)
Record Store (A : Type) : Type := mkStore {
  GetByKey : string -> Lookup A;
  ListAll : list A
}.

End K8s.

(* ===================================================================== *)
(** * Declarations of the platform packages *)
(* ===================================================================== *)

Module Platform.
Import K8s.

(** [platform.HeadCommit] *)
Record HeadCommit : Type := mkHeadCommit {
  hcID : string;
  hcAuthor : string;
  hcAvatarURL : string;
  hcCompare : string;
  hcMessage : string;
  hcURL : string
}.

(** [platform.Release] with the fields [syncHandler] fills in;
    [SourceType] is a string type. *)
Record Release : Type := mkRelease {
  relKind : string;
  relAPIVersion : string;
  relName : string;
  relNamespace : string;
  relLabels : gmap string string;
  relGitRemote : string;
  relGitBranch : string;
  relGitRepository : string;
  relHeadCommit : HeadCommit;
  relAutoDeploy : bool;
  relDeployName : string;
  relBuild : bool;
  relSource : string
}.

(** The constants, types and helpers of packages [platform]
    ([pkg/apis/core/v1alpha1]), [draft] and [koliutil] that the
    controllers use and that are declared outside these sources. *)
Class Decls : Type := mkDecls {
  (* annotation and label keys *)
  AnnotationSetupStorage : string;
  AnnotationApp : string;
  AnnotationBuild : string;
  AnnotationAutoDeploy : string;
  AnnotationBuildSource : string;
  AnnotationGitRemote : string;
  AnnotationGitBranch : string;
  AnnotationGitRepository : string;
  AnnotationGitCommitID : string;
  AnnotationGitAuthorName : string;
  AnnotationGitAuthorAvatar : string;
  AnnotationGitCompare : string;
  AnnotationGitCommitMessage : string;
  AnnotationGitCommitURL : string;
  AnnotationGitRevision : string;
  SystemNamespace : string;
  (* API group and custom resource names *)
  SchemeGroup : string;
  SchemeVersion : string;
  PlanResourceName : string;
  PlanResourceKind : string;
  PlanResourcePlural : string;
  ReleaseResourceName : string;
  ReleaseResourceKind : string;
  ReleaseResourcePlural : string;
  (* platform.Plan *)
  Plan : Type;
  PlanName : Plan -> string;
  PlanStorage : Plan -> Quantity;
  IsStorageType : Plan -> bool;
  (* draft.NamespaceMeta *)
  NamespaceMeta : Type;
  NewNamespaceMetadata : string -> NamespaceMeta;
  GetNamespaceMetadata : Deployment -> NamespaceMeta;
  IsValid : NamespaceMeta -> bool;
  Valid : NamespaceMeta -> bool;
  (* draft.Deployment: GetStoragePlan().Value() *)
  GetStoragePlan : Deployment -> string * bool;
  (* koliutil.SHA *)
  SHA : Type;
  NewSha : string -> option SHA;
  Short : SHA -> string
}.

(** [SchemeGroupVersion.String()] *)
Definition SchemeGroupVersionString `{Decls} : string :=
  SchemeGroup +:+ "/" +:+ SchemeVersion.

(** Modelled from the spec: [draft.Deployment.HasSetupPVCAnnotation] is
    declared outside these sources.  The markers are plain string
    key/value pairs on the source object and any value other than the
    text [true], or no value, counts as unset; the marker is the
    annotation the storage patch of [syncHandler] writes. *)
Definition HasSetupPVCAnnotation `{Decls} (d : Deployment) : bool :=
  String.eqb (index (dpAnnotations d) AnnotationSetupStorage) "true".

End Platform.

(* ===================================================================== *)
(** * Calls that leave the process *)
(* ===================================================================== *)

Module Effects.
Import Go K8s Platform.

(** glog severities. *)
Inductive Severity : Type := Info | Warning | Error_.

(** The prometheus counters of the package. *)
Inductive Counter : Type := pvcFailed | pvcCreated.

(** The object an event is recorded against. *)
Inductive Object : Type :=
| ObjDeployment (d : Deployment)
| ObjRelease (r : Release).

(** One constructor per outgoing call, indexed by what the call
    returns.  Create and patch calls return an object and an error;
    the code keeps the error only.
    [Glog sev v msg] is [glog.V(v).<sev>f]; [v = 0] is unconditional. *)
Inductive Cmd : Type -> Type :=
(* kclient.Core() and kclient.Extensions() *)
| PersistentVolumeClaimsCreate (ns : string) (pvc : PersistentVolumeClaim)
    : Cmd (option error)
| ServicesCreate (ns : string) (svc : Service) : Cmd (option error)
| IngressesCreate (ns : string) (ing : Ingress) : Cmd (option error)
| PodsDeleteCollection (ns : string) (labelSelector : string)
    : Cmd (option error)
| DeploymentsPatch (ns name : string) (pt : PatchType) (data : string)
    : Cmd (option error)
(* clientset.Release(ns) *)
| ReleaseCreate (ns : string) (r : Release) : Cmd (option error)
(* apiextensions clientset *)
| CustomResourceDefinitionsCreate (crd : CustomResourceDefinition)
    : Cmd (option error)
| CustomResourceDefinitionsGet (name : string)
    : Cmd (CustomResourceDefinition + error)
(* record.EventRecorder *)
| RecorderEvent (obj : Object) (ty : EventType) (reason msg : string)
    : Cmd unit
(* glog and prometheus *)
| Glog (sev : Severity) (v : nat) (msg : string) : Cmd unit
| Inc (c : Counter) : Cmd unit
(* workqueue.RateLimitingInterface *)
| QueueGet : Cmd (option string * bool)
| QueueAdd (key : string) : Cmd unit
| QueueAddRateLimited (key : string) : Cmd unit
| QueueForget (key : string) : Cmd unit
| QueueDone (key : string) : Cmd unit
| QueueShutDown : Cmd unit
(* close(t.workerDone) *)
| CloseWorkerDone : Cmd unit
(* <-c on the channel of wait's poller(interval, timeout), durations in
   nanoseconds: true for a tick, false when the channel is closed *)
| PollerReceive (interval timeout : Z) : Cmd bool.

(** Programs: a result, or a call and what to do with its answer. *)
Inductive Prog (A : Type) : Type :=
| Ret (a : A)
| Vis (R : Type) (c : Cmd R) (k : R -> Prog A).
Arguments Ret {A} a.
Arguments Vis {A R} c k.

Fixpoint bind {A B : Type} (p : Prog A) (f : A -> Prog B) : Prog B :=
  match p with
  | Ret a => f a
  | Vis c k => Vis c (fun r => bind (k r) f)
  end.

Definition call {R : Type} (c : Cmd R) : Prog R := Vis c Ret.

(** A call together with its answer. *)
Record Event : Type := Ev {
  evType : Type;
  evCmd : Cmd evType;
  evAnswer : evType
}.
Arguments Ev {evType} evCmd evAnswer.

(** The environment: it answers every call and may keep state. *)
Definition Handler (S : Type) : Type := forall R : Type, Cmd R -> S -> R * S.

(** Result, final environment state and the calls made, in order. *)
Fixpoint run {S A : Type} (h : Handler S) (p : Prog A) (s : S)
  : A * S * list Event :=
  match p with
  | Ret a => (a, s, [])
  | Vis c k =>
      let (r, s1) := h _ c s in
      let '(a, s2, t) := run h (k r) s1 in
      (a, s2, Ev c r :: t)
  end.

Definition result {S A : Type} (o : A * S * list Event) : A := fst (fst o).
Definition final {S A : Type} (o : A * S * list Event) : S := snd (fst o).
Definition trace {S A : Type} (o : A * S * list Event) : list Event := snd o.

(** ** Reading a trace *)

(** What one event says about each kind of call. *)
Definition asPVCCreate (e : Event)
  : option (string * PersistentVolumeClaim * option error) :=
  match evCmd e in Cmd R return R -> _ with
  | PersistentVolumeClaimsCreate ns pvc => fun r => Some (ns, pvc, r)
  | _ => fun _ => None
  end (evAnswer e).

Definition asServiceCreate (e : Event)
  : option (string * Service * option error) :=
  match evCmd e in Cmd R return R -> _ with
  | ServicesCreate ns svc => fun r => Some (ns, svc, r)
  | _ => fun _ => None
  end (evAnswer e).

Definition asIngressCreate (e : Event)
  : option (string * Ingress * option error) :=
  match evCmd e in Cmd R return R -> _ with
  | IngressesCreate ns ing => fun r => Some (ns, ing, r)
  | _ => fun _ => None
  end (evAnswer e).

Definition asDeleteCollection (e : Event)
  : option (string * string * option error) :=
  match evCmd e in Cmd R return R -> _ with
  | PodsDeleteCollection ns sel => fun r => Some (ns, sel, r)
  | _ => fun _ => None
  end (evAnswer e).

Definition asPatch (e : Event)
  : option (string * string * PatchType * string * option error) :=
  match evCmd e in Cmd R return R -> _ with
  | DeploymentsPatch ns name pt data => fun r => Some (ns, name, pt, data, r)
  | _ => fun _ => None
  end (evAnswer e).

Definition asReleaseCreate (e : Event)
  : option (string * Release * option error) :=
  match evCmd e in Cmd R return R -> _ with
  | ReleaseCreate ns rel => fun r => Some (ns, rel, r)
  | _ => fun _ => None
  end (evAnswer e).

Definition asCRDCreate (e : Event)
  : option (CustomResourceDefinition * option error) :=
  match evCmd e in Cmd R return R -> _ with
  | CustomResourceDefinitionsCreate crd => fun r => Some (crd, r)
  | _ => fun _ => None
  end (evAnswer e).

Definition asCRDGet (e : Event)
  : option (string * (CustomResourceDefinition + error)) :=
  match evCmd e in Cmd R return R -> _ with
  | CustomResourceDefinitionsGet name => fun r => Some (name, r)
  | _ => fun _ => None
  end (evAnswer e).

Definition asRecorded (e : Event)
  : option (Object * EventType * string * string) :=
  match evCmd e with
  | RecorderEvent obj ty reason msg => Some (obj, ty, reason, msg)
  | _ => None
  end.

Definition asLog (e : Event) : option (Severity * nat * string) :=
  match evCmd e with
  | Glog sev v msg => Some (sev, v, msg)
  | _ => None
  end.

Definition asReceive (e : Event) : option (Z * Z * bool) :=
  match evCmd e in Cmd R return R -> _ with
  | PollerReceive interval timeout =>
      fun open => Some (interval, timeout, open)
  | _ => fun _ => None
  end (evAnswer e).

(** The work-queue calls of a trace. *)
Inductive QueueCall : Type :=
| QGet (key : option string) (quit : bool)
| QAdd (key : string)
| QAddRateLimited (key : string)
| QForget (key : string)
| QDone (key : string)
| QShutDown.

Definition asQueueCall (e : Event) : option QueueCall :=
  match evCmd e in Cmd R return R -> _ with
  | QueueGet => fun r => Some (QGet (fst r) (snd r))
  | QueueAdd k => fun _ => Some (QAdd k)
  | QueueAddRateLimited k => fun _ => Some (QAddRateLimited k)
  | QueueForget k => fun _ => Some (QForget k)
  | QueueDone k => fun _ => Some (QDone k)
  | QueueShutDown => fun _ => Some QShutDown
  | _ => fun _ => None
  end (evAnswer e).

(** The events of one kind, in order. *)
Definition pvcCreates (t : list Event) := omap asPVCCreate t.
Definition serviceCreates (t : list Event) := omap asServiceCreate t.
Definition ingressCreates (t : list Event) := omap asIngressCreate t.
Definition deleteCollections (t : list Event) := omap asDeleteCollection t.
Definition patches (t : list Event) := omap asPatch t.
Definition releaseCreates (t : list Event) := omap asReleaseCreate t.
Definition crdCreates (t : list Event) := omap asCRDCreate t.
Definition crdGets (t : list Event) := omap asCRDGet t.
Definition recorded (t : list Event) := omap asRecorded t.
Definition logged (t : list Event) := omap asLog t.
Definition received (t : list Event) := omap asReceive t.
Definition queueCalls (t : list Event) := omap asQueueCall t.

(** Every call the program can make passes the test [ok]. *)
Fixpoint callsOnly {A : Type} (ok : forall R : Type, Cmd R -> bool)
    (p : Prog A) : Prop :=
  match p with
  | Ret _ => True
  | Vis c k => ok _ c = true /\ forall r, callsOnly ok (k r)
  end.

(** The calls that set up the default route or write a log line. *)
Definition routeOrLog (R : Type) (c : Cmd R) : bool :=
  match c with
  | ServicesCreate _ _ => true
  | IngressesCreate _ _ => true
  | Glog _ _ _ => true
  | _ => false
  end.

(** The counter increments of a trace. *)
Definition asInc (e : Event) : option Counter :=
  match evCmd e with
  | Inc c => Some c
  | _ => None
  end.

Definition incs (t : list Event) := omap asInc t.

(** Log lines, and nothing else. *)
Definition logOnly (R : Type) (c : Cmd R) : bool :=
  match c with
  | Glog _ _ _ => true
  | _ => false
  end.

(** Run [body] on every element, in order: a [for] loop, or the
    callback [cache.ListAll] is given. *)
Fixpoint forEach {A : Type} (l : list A) (body : A -> Prog unit) : Prog unit :=
  match l with
  | [] => Ret tt
  | x :: rest => bind (body x) (fun _ => forEach rest body)
  end.

End Effects.

Declare Scope prog_scope.
Delimit Scope prog_scope with prog.
Notation "x <- p ;; k" := (Effects.bind p (fun x => k))
  (at level 100, p at next level, right associativity) : prog_scope.
Notation "p ;; k" := (Effects.bind p (fun _ => k))
  (at level 100, right associativity) : prog_scope.

(* ===================================================================== *)
(** * AppManagerController *)
(* ===================================================================== *)

Module AppManagerController.
Import Go K8s Platform Effects.
Local Open Scope prog_scope.

Section WithDecls.
Context `{Decls}.

(** The controller: its two informer stores and the default domain.
    The client, the queue and the recorder are reached by calls. *)
Record Controller : Type := mkController {
  dpInf : Store Deployment;
  planInf : Store Plan;
  defaultDomain : string
}.

Definition newPVC (d : Deployment) (plan : Plan) : PersistentVolumeClaim :=
  {| pvcName := Sprintf "d-%s" [dpName d];
     pvcNamespace := dpNamespace d;
     pvcAccessModes := [ReadWriteOnce];
     pvcRequests := {[ ResourceStorage := PlanStorage plan ]} |}.

Definition cleanBuilds (ns appName : string) : Prog (option error) :=
  (* skip non-platform resources *)
  if negb (IsValid (NewNamespaceMetadata ns)) then Ret None
  else call (PodsDeleteCollection ns
               (Sprintf "%s=%s" [AnnotationApp; appName])).

(** [addDefaultRoute] add a service and ingress for a given deployment. *)
Definition addDefaultRoute (c : Controller) (d : Deployment)
  : Prog (option error) :=
  if (String.length (defaultDomain c) =? 0)%nat
     || negb (String.eqb (index (dpLabels d) "kolihub.io/type") "app")
  then Ret None
  else
    let ownerRefs :=
      [ {| orAPIVersion := "extensions/v1beta1";
           orKind := "Deployment";
           orController := Some true;
           orName := dpName d;
           orUID := dpUID d |} ] in
    let svc :=
      {| svcNamespace := dpNamespace d;
         svcName := dpName d;
         svcLabels := {[ "kolihub.io/type" := "app" ]};
         svcOwnerReferences := ownerRefs;
         svcPorts := [ {| spName := "http"; spPort := 80;
                          spProtocol := "TCP"; spTargetPort := 5000 |} ];
         svcSelector := <[ "kolihub.io/name" := dpName d ]>
                          {[ "kolihub.io/type" := "app" ]} |} in
    err <- call (ServicesCreate (dpNamespace d) svc) ;;
    if notNil err && negb (isAlreadyExists err) then Ret err
    else
      let ing :=
        {| ingNamespace := dpNamespace d;
           ingName := dpName d;
           ingAnnotations := {[ "kolihub.io/parent" := SystemNamespace ]};
           ingLabels := {[ "kolihub.io/type" := "app" ]};
           ingOwnerReferences := ownerRefs;
           ingRules :=
             [ {| irHost := Sprintf "%s-%s.%s"
                              [dpName d; dpNamespace d; defaultDomain c];
                  irPaths := [ {| ipServiceName := dpName d;
                                  ipServicePort := 80;
                                  ipPath := "/" |} ] |} ] |} in
      call (IngressesCreate (dpNamespace d) ing).

(** The plan [cache.ListAll] leaves in [plan]: the callback assigns
    on every match, so the last match stays. *)
Definition findPlan (plans : list Plan) (planName : string) : option Plan :=
  fold_left
    (fun plan p =>
       if String.eqb (PlanName p) planName && IsStorageType p
       then Some p else plan)
    plans None.

(** The patch data of the storage step. *)
Definition setupStoragePatchData : string :=
  Sprintf ("{" +:+ q "metadata" +:+ ": {" +:+ q "annotations" +:+ ": {"
           +:+ q "%s" +:+ ": " +:+ q "false" +:+ "}}}")
    [AnnotationSetupStorage].

Definition syncHandler (c : Controller) (key : string)
  : Prog (option error) :=
  match GetByKey (dpInf c) key with
  | LookupFailed err =>
      call (Glog Warning 0
              (Sprintf "%s - failed retrieving object from store [%s]"
                 [key; Error err])) ;;
      Ret (Some err)
  | NotFound =>
      call (Glog Info 3
              (Sprintf "%s - the deployment doesn't exists" [key])) ;;
      (* This is a workaround to clean up slugbuild pods *)
      match Split key "/"%char with
      | [ns; appName] =>
          call (Glog Info 0
                  (Sprintf "%s - removing orphan slugbuilds" [key])) ;;
          err <- cleanBuilds ns appName ;;
          (if notNil err
           then call (Glog Warning 0
                        (Sprintf "%s - failed removing orphan slugbuilds"
                           [key]))
           else Ret tt) ;;
          Ret None
      | _ => Ret None
      end
  | Found d =>
      match dpDeletionTimestamp d with
      | Some _ =>
          call (Glog Info 3
                  (Sprintf "%s - object marked for deletion" [key])) ;;
          Ret None
      | None =>
      if negb (Valid (GetNamespaceMetadata d)) then
        call (Glog Info 3
                (Sprintf "%s - it's not a valid resource" [key])) ;;
        Ret None
      else
        err <- addDefaultRoute c d ;;
        (if notNil err && negb (isAlreadyExists err)
         then call (Glog Warning 0
                      (Sprintf "%s - failed adding default routes [%v]"
                         [key; errText err]))
         else Ret tt) ;;
        (match dpContainers d with
         | c0 :: _ =>
             match Requests c0, Limits c0 with
             | Some _, Some _ => Ret tt
             | _, _ =>
                 call (Glog Warning 0
                         (Sprintf
                            "%s - deployment has empty 'limits' or 'requests' resources"
                            [key]))
             end
         | [] => Ret tt
         end) ;;
        let (planName, exists_) := GetStoragePlan d in
        if negb exists_ || negb (HasSetupPVCAnnotation d) then
          call (Glog Info 3
                  (Sprintf
                     "%s - the object doesn't have a storage plan or an annotation to setup a PVC"
                     [key])) ;;
          Ret None
        else
          match findPlan (ListAll (planInf c)) planName with
          | None =>
              let msg := Sprintf ("Storage Plan " +:+ q "%s" +:+ " not found")
                           [planName] in
              call (RecorderEvent (ObjDeployment d) EventTypeWarning
                      "PlanNotFound" msg) ;;
              Ret (Some (Errorf msg []))
          | Some plan =>
              err <- call (PersistentVolumeClaimsCreate (dpNamespace d)
                             (newPVC d plan)) ;;
              if notNil err && negb (isAlreadyExists err) then
                call (Inc pvcFailed) ;;
                let msg := Sprintf "Failed creating PVC [%v]" [errText err] in
                call (RecorderEvent (ObjDeployment d) EventTypeWarning
                        "ProvisionError" msg) ;;
                Ret (Some (Errorf msg []))
              else
                (if notNil err then Ret tt else call (Inc pvcCreated)) ;;
                call (Glog Info 0
                        (Sprintf ("%s - PVC " +:+ q "d-%s"
                                  +:+ " created with " +:+ q "%s")
                           [key; dpName d; PlanStorage plan])) ;;
                err <- call (DeploymentsPatch (dpNamespace d) (dpName d)
                               MergePatchType setupStoragePatchData) ;;
                if notNil err then
                  Ret (Some (Errorf "%s - failed updating deployment [%v]"
                               [key; errText err]))
                else Ret None
          end
      end
  end.

End WithDecls.
End AppManagerController.

(* ===================================================================== *)
(** * ReleaseController *)
(* ===================================================================== *)

Module ReleaseController.
Import Go K8s Platform Effects.
Local Open Scope prog_scope.

Section WithDecls.
Context `{Decls}.

Record Controller : Type := mkController {
  releaseInf : Store Release;
  dpInf : Store Deployment
}.

(** keys required in a deployment annotation for creating a new release *)
Definition requiredKeys : list string := [AnnotationGitRemote].

Fixpoint validateKeys (keys : list string) (dp : Deployment)
  : option error :=
  match keys with
  | [] => None
  | key :: rest =>
      match dpAnnotations dp !! key with
      | None => Some (Errorf "Missing required key '%s'" [key])
      | Some _ => validateKeys rest dp
      end
  end.

Definition validateRequiredKeys (dp : Deployment) : option error :=
  validateKeys requiredKeys dp.

Definition activateBuildPayload (activate : bool) : string :=
  let build := if activate then "true" else "false" in
  Sprintf ("{" +:+ q "metadata" +:+ ": {" +:+ q "annotations" +:+ ": {"
           +:+ q "%s" +:+ ": " +:+ q "%s" +:+ "}}}")
    [AnnotationBuild; build].

Definition getLastBuildRevision (revisions : list Z) : Z :=
  fold_left (fun n v => if (n <? v)%Z then v else n) revisions 0%Z.

(** The release [syncHandler] builds from a deployment, labels
    included. *)
Definition newRelease (dp : Deployment) : Release :=
  let gitSha := NewSha (index (dpAnnotations dp) AnnotationGitCommitID) in
  let dpRevision := dpName dp in
  let autoDeploy :=
    String.eqb (index (dpAnnotations dp) AnnotationAutoDeploy) "true" in
  let sourceType := index (dpAnnotations dp) AnnotationBuildSource in
  let labels : gmap string string := {[ "kolihub.io/deploy" := dpName dp ]} in
  {| relKind := "Release";
     relAPIVersion := SchemeGroupVersionString;
     relName := dpRevision;
     relNamespace := dpNamespace dp;
     (* Useful for filtering *)
     relLabels :=
       match gitSha with
       | Some sha => <[ AnnotationGitRevision := Short sha ]> labels
       | None => labels
       end;
     relGitRemote := index (dpAnnotations dp) AnnotationGitRemote;
     relGitBranch := index (dpAnnotations dp) AnnotationGitBranch;
     relGitRepository := index (dpAnnotations dp) AnnotationGitRepository;
     relHeadCommit :=
       {| hcID := index (dpAnnotations dp) AnnotationGitCommitID;
          hcAuthor := index (dpAnnotations dp) AnnotationGitAuthorName;
          hcAvatarURL := index (dpAnnotations dp) AnnotationGitAuthorAvatar;
          hcCompare := index (dpAnnotations dp) AnnotationGitCompare;
          hcMessage := index (dpAnnotations dp) AnnotationGitCommitMessage;
          hcURL := index (dpAnnotations dp) AnnotationGitCommitURL |};
     relAutoDeploy := autoDeploy;
     relDeployName := dpName dp;
     relBuild := true; (* Always build a new release! *)
     relSource := sourceType |}.

Definition syncHandler (r : Controller) (key : string)
  : Prog (option error) :=
  match GetByKey (dpInf r) key with
  | LookupFailed err => Ret (Some err)
  | NotFound =>
      call (Glog Info 2 (Sprintf "%s - release doesn't exists" [key])) ;;
      Ret None
  | Found dp =>
      if negb (IsValid (NewNamespaceMetadata (dpNamespace dp))) then
        call (Glog Info 2
                (Sprintf "%s - noop, it's not a valid namespace" [key])) ;;
        Ret None
      else if negb (String.eqb (index (dpAnnotations dp) "kolihub.io/build")
                      "true") then
        call (Glog Info 4
                (Sprintf "%s - noop, isn't a build action" [key])) ;;
        Ret None
      else
        (* The release doesn't exists, create/build a new one! *)
        match validateRequiredKeys dp with
        | Some err =>
            call (RecorderEvent (ObjDeployment dp) EventTypeWarning
                    "MissingAnnotationKey" (Error err)) ;;
            Ret (Some (Errorf "ValidateRequiredKeys [%s]" [Error err]))
        | None =>
            (if String.eqb (index (dpAnnotations dp) AnnotationAutoDeploy)
                  "true"
             then call (Glog Info 2
                          (Sprintf "%s - autodeploy turned on." [key]))
             else Ret tt) ;;
            let release := newRelease dp in
            err <- call (ReleaseCreate (relNamespace release) release) ;;
            if notNil err && negb (isAlreadyExists err) then
              Ret (Some (Errorf "failed creating new release: %s"
                           [errText err]))
            else
              (if notNil err then Ret tt
               else
                 let ref :=
                   if (String.length (hcID (relHeadCommit release)) =? 0)%nat
                   then relGitBranch release
                   else hcID (relHeadCommit release) in
                 let msg :=
                   Sprintf "Created release with revision '%s' from '%s'"
                     [ref; relSource release] in
                 call (RecorderEvent (ObjRelease release) EventTypeNormal
                         "Created" msg) ;;
                 call (Glog Info 0
                         (Sprintf "%s - new release created '%s'"
                            [key; relName release]))) ;;
              (* We need to update the 'build' key to false, otherwise
                 the build will be triggered again. *)
              let deactivateBuild := activateBuildPayload false in
              err <- call (DeploymentsPatch (dpNamespace dp) (dpName dp)
                             StrategicMergePatchType deactivateBuild) ;;
              (if notNil err
               then call (Glog Warning 0
                            (Sprintf
                               "%s - failed deactivating build from deployment [%s]"
                               [key; errText err]))
               else Ret tt) ;;
              Ret None
        end
  end.

End WithDecls.
End ReleaseController.

(* ===================================================================== *)
(** * TaskQueue *)
(* ===================================================================== *)

Module TaskQueue.
Import Go K8s Effects.
Local Open Scope prog_scope.

(** [TaskQueue]: [sync] is called for each item in the queue; the
    rate-limited queue and the [workerDone] channel are reached by
    calls. *)
Record TaskQueue : Type := mkTaskQueue {
  sync : string -> Prog (option error)
}.

(** worker processes work in the queue through sync.
    [Get] hands back [(key, quit)]; a [None] key is a nil item. *)
Definition processNextWorkItem (t : TaskQueue) : Prog unit :=
  r <- call QueueGet ;;
  let (key, quit) := r : option string * bool in
  if quit then call CloseWorkerDone
  else
    match key with
    | None => Ret tt
    | Some key =>
        call (Glog Info 3 (Sprintf "Syncing %v" [key])) ;;
        err <- sync t key ;;
        (if notNil err then
           call (Glog Error_ 0
                   (Sprintf "Requeuing %v, err: %v" [key; errText err])) ;;
           call (QueueAddRateLimited key)
         else call (QueueForget key)) ;;
        call (QueueDone key)
    end.

(** shutdown shuts down the work queue and waits for the worker to ACK;
    the wait on the channel has no call of its own. *)
Definition shutdown (t : TaskQueue) : Prog unit :=
  call QueueShutDown.

(** The key [cache.MetaNamespaceKeyFunc] of client-go gives an object
    with metadata: [namespace/name], or the name alone when the
    namespace is empty. *)
Definition MetaNamespaceKeyFunc (d : Deployment) : string * option error :=
  if (String.length (dpNamespace d) =? 0)%nat then (dpName d, None)
  else (dpNamespace d +:+ "/" +:+ dpName d, None).

Section Add.
(** [keyFunc] is the package variable of that name, set to client-go's
    [DeletionHandlingMetaNamespaceKeyFunc]; [goString] is the text
    [%+v] prints for the object. *)
Variable keyFunc : Deployment -> string * option error.
Variable goString : Deployment -> string.

(** Add enqueues ns/name of the given api object in the task queue.
    The log line is [Couldn't get key for object %+v: %v]. *)
Definition Add (obj : Deployment) : Prog unit :=
  let (key, err) := keyFunc obj in
  if notNil err then
    call (Glog Info 0
            ("Couldn't get key for object " +:+ goString obj +:+ ": "
             +:+ errText err))
  else call (QueueAdd key).

End Add.

End TaskQueue.

(* ===================================================================== *)
(** * The listeners the controllers register with the deployment cache *)
(* ===================================================================== *)

Module AppManagerEvents.
Import Go K8s Platform Effects.
Local Open Scope prog_scope.

Section WithDecls.
Context `{Decls}.
Variable keyFunc : Deployment -> string * option error.
Variable goString : Deployment -> string.

Definition addDeployment (new : Deployment) : Prog unit :=
  call (Glog Info 0
          (Sprintf "add-deployment(%d) - %s/%s"
             [itoa (dpObservedGeneration new); dpNamespace new; dpName new])) ;;
  TaskQueue.Add keyFunc goString new.

Definition updateDeployment (old new : Deployment) : Prog unit :=
  if String.eqb (dpResourceVersion old) (dpResourceVersion new) then Ret tt
  else TaskQueue.Add keyFunc goString new.

Definition deleteDeployment (obj : Deployment) : Prog unit :=
  TaskQueue.Add keyFunc goString obj.

(** enqueueForNamespace enqueues all Deployments object keys that belong
    to the given namespace. *)
Definition enqueueForNamespace (c : AppManagerController.Controller)
    (namespace : string) : Prog unit :=
  forEach (ListAll (AppManagerController.dpInf c))
    (fun d =>
       if String.eqb (dpNamespace d) namespace
       then TaskQueue.Add keyFunc goString d
       else Ret tt).

End WithDecls.
End AppManagerEvents.

Module ReleaseEvents.
Import Go K8s Platform Effects.
Local Open Scope prog_scope.

Section WithKeys.
Variable keyFunc : Deployment -> string * option error.
Variable goString : Deployment -> string.

Definition addDeployment (dp : Deployment) : Prog unit :=
  call (Glog Info 2
          (Sprintf "add-deployment - %s/%s" [dpNamespace dp; dpName dp])) ;;
  TaskQueue.Add keyFunc goString dp.

Definition updateDeployment (old new : Deployment) : Prog unit :=
  if String.eqb (dpResourceVersion old) (dpResourceVersion new) then Ret tt
  else
    let statusGen := dpObservedGeneration new in
    if negb (dpGeneration old =? dpGeneration new)%Z then
      call (Glog Info 2
              (Sprintf
                 "update-deployment(%d) - %s/%s - new generation, queueing ..."
                 [itoa statusGen; dpNamespace new; dpName new])) ;;
      TaskQueue.Add keyFunc goString new
    else Ret tt.

End WithKeys.
End ReleaseEvents.

(* ===================================================================== *)
(** * Custom resource definitions *)
(* ===================================================================== *)

Module CRD.
Import Go K8s Platform Effects.
Local Open Scope prog_scope.

(** [time.Second], in nanoseconds. *)
Definition Second : Z := 1000000000.

(** [wait.ErrWaitTimeout] *)
Definition ErrWaitTimeout : error :=
  mkError false "timed out waiting for the condition".

(** [wait.WaitFor] of apimachinery, on the channel [c] of
    [poller(interval, timeout)]:

      for {
        _, open := <-c
        ok, err := fn()
        if err != nil { return err }
        if ok { return nil }
        if !open { break }
      }
      return ErrWaitTimeout

    The condition runs after every receive, the one that finds the
    channel closed included.  The poller sends a tick every [interval]
    and closes the channel once [timeout] has passed: a tick is lost
    when nobody waits for it, and the tick that is due at the timeout
    races with the close, so how many ticks arrive before the close is
    for the environment to say, [timeout / interval] at most.  [ticks]
    counts the ticks the channel can still carry; with none left the
    next receive can only find the channel closed, and is not put to
    the environment. *)
Fixpoint WaitFor (ticks : nat) (interval timeout : Z)
    (fn : Prog (bool * option error)) : Prog (option error) :=
  match ticks with
  | O =>
      r <- fn ;;
      let (ok, err) := r : bool * option error in
      if notNil err then Ret err
      else if ok then Ret None
      else Ret (Some ErrWaitTimeout)
  | S n =>
      open <- call (PollerReceive interval timeout) ;;
      r <- fn ;;
      let (ok, err) := r : bool * option error in
      if notNil err then Ret err
      else if ok then Ret None
      else if negb open then Ret (Some ErrWaitTimeout)
      else WaitFor n interval timeout fn
  end.

(** [wait.Poll(interval, timeout, condition)] *)
Definition Poll (interval timeout : Z)
    (condition : Prog (bool * option error)) : Prog (option error) :=
  WaitFor (Z.to_nat (timeout / interval)) interval timeout condition.

(** The body of the [for] over [crd.Status.Conditions]: the first
    condition that settles the matter returns. *)
Fixpoint scanConditions (conds : list CRDCondition) : bool * option error :=
  match conds with
  | [] => (false, None)
  | cond :: rest =>
      match condType cond with
      | Established =>
          match condStatus cond with
          | ConditionTrue => (true, None)
          | _ => scanConditions rest
          end
      | NamesAccepted =>
          match condStatus cond with
          | ConditionFalse =>
              (false, Some (Errorf "Name conflict: %v" [condReason cond]))
          | _ => scanConditions rest
          end
      | _ => scanConditions rest
      end
  end.

(** The condition function handed to [wait.Poll]. *)
Definition crdReady (resourceName : string) : Prog (bool * option error) :=
  r <- call (CustomResourceDefinitionsGet resourceName) ;;
  match r with
  | inr err => Ret (false, Some err)
  | inl crd => Ret (scanConditions (crdConditions crd))
  end.

Definition waitCRDReady (resourceName : string) : Prog (option error) :=
  Poll (1 * Second) (30 * Second) (crdReady resourceName).

(** The error of a name conflict with the given reason. *)
Definition nameConflict (reason : string) : error :=
  mkError false ("Name conflict: " +:+ reason).




Section WithDecls.
Context `{Decls}.

(** The resources [CreateCRD] declares: name, kind, plural. *)
Definition resources : list (string * string * string) :=
  [ (PlanResourceName, PlanResourceKind, PlanResourcePlural);
    (ReleaseResourceName, ReleaseResourceKind, ReleaseResourcePlural) ].

Definition newCRD (r : string * string * string) : CustomResourceDefinition :=
  let '(name, kind, plural) := r in
  {| crdName := name;
     crdGroup := SchemeGroup;
     crdVersion := SchemeVersion;
     crdScope := NamespaceScoped;
     crdPlural := plural;
     crdKind := kind;
     crdConditions := [] |}.

Fixpoint createAll (rs : list (string * string * string))
  : Prog (option error) :=
  match rs with
  | [] => Ret None
  | r :: rest =>
      err <- call (CustomResourceDefinitionsCreate (newCRD r)) ;;
      if negb (notNil err) || isAlreadyExists err then
        call (Glog Info 0
                (Sprintf
                   "Custom Resource Definiton '%s' provisioned, waiting to be ready ..."
                   [fst (fst r)])) ;;
        err <- waitCRDReady (fst (fst r)) ;;
        if notNil err then Ret err else createAll rest
      else Ret err
  end.

(** CreateCRD provision the Custom Resource Definition and
    wait until the API is ready to interact it with *)
Definition CreateCRD : Prog (option error) := createAll resources.

End WithDecls.
End CRD.

(* ===================================================================== *)
(** * Environments to run the controllers against *)
(* ===================================================================== *)

(** A control plane that keeps the created objects by namespace and
    name, the way the API server does: a create under a name already
    taken is refused with an "already exists" status and changes
    nothing.  The other calls succeed and leave the stores alone. *)
Module Fake.
Import Go K8s Platform Effects.

Record Cluster : Type := mkCluster {
  pvcs : gmap (string * string) PersistentVolumeClaim;
  services : gmap (string * string) Service;
  ingresses : gmap (string * string) Ingress;
  releases : gmap (string * string) Release;
  crds : gmap string CustomResourceDefinition
}.

Definition empty : Cluster := mkCluster ∅ ∅ ∅ ∅ ∅.

Definition alreadyExists (kind name : string) : error :=
  mkError true (kind +:+ " " +:+ q name +:+ " already exists").

Definition notFound (kind name : string) : error :=
  mkError false (kind +:+ " " +:+ q name +:+ " not found").

Definition create {K A : Type} `{Countable K} (kind name : string)
    (k : K) (obj : A) (m : gmap K A) : option error * gmap K A :=
  match m !! k with
  | Some _ => (Some (alreadyExists kind name), m)
  | None => (None, <[k := obj]> m)
  end.

Definition handle : Handler Cluster :=
  fun R c cl =>
    match c in Cmd R return R * Cluster with
    | PersistentVolumeClaimsCreate ns pvc =>
        let (e, m) := create "persistentvolumeclaims" (pvcName pvc)
                        (ns, pvcName pvc) pvc (pvcs cl) in
        (e, mkCluster m (services cl) (ingresses cl) (releases cl) (crds cl))
    | ServicesCreate ns svc =>
        let (e, m) := create "services" (svcName svc)
                        (ns, svcName svc) svc (services cl) in
        (e, mkCluster (pvcs cl) m (ingresses cl) (releases cl) (crds cl))
    | IngressesCreate ns ing =>
        let (e, m) := create "ingresses" (ingName ing)
                        (ns, ingName ing) ing (ingresses cl) in
        (e, mkCluster (pvcs cl) (services cl) m (releases cl) (crds cl))
    | ReleaseCreate ns rel =>
        let (e, m) := create "releases" (relName rel)
                        (ns, relName rel) rel (releases cl) in
        (e, mkCluster (pvcs cl) (services cl) (ingresses cl) m (crds cl))
    | CustomResourceDefinitionsCreate crd =>
        let (e, m) := create "customresourcedefinitions" (crdName crd)
                        (crdName crd) crd (crds cl) in
        (e, mkCluster (pvcs cl) (services cl) (ingresses cl) (releases cl) m)
    | CustomResourceDefinitionsGet name =>
        match crds cl !! name with
        | Some crd => (inl crd, cl)
        | None => (inr (notFound "customresourcedefinitions" name), cl)
        end
    | PodsDeleteCollection _ _ => (None, cl)
    | DeploymentsPatch _ _ _ _ => (None, cl)
    | QueueGet => ((None, true), cl)
    | RecorderEvent _ _ _ _ => (tt, cl)
    | Glog _ _ _ => (tt, cl)
    | Inc _ => (tt, cl)
    | QueueAdd _ => (tt, cl)
    | QueueAddRateLimited _ => (tt, cl)
    | QueueForget _ => (tt, cl)
    | QueueDone _ => (tt, cl)
    | QueueShutDown => (tt, cl)
    | CloseWorkerDone => (tt, cl)
    | PollerReceive _ _ => (true, cl)
    end.

End Fake.

(** Environments without state: every call is answered by a fixed rule. *)
Module Scripted.
Import Go K8s Platform Effects.

(** Every call succeeds; a definition read shows no condition yet and
    the queue hands out nothing. *)
Definition ok (R : Type) (c : Cmd R) : R :=
  match c in Cmd R return R with
  | PersistentVolumeClaimsCreate _ _ => None
  | ServicesCreate _ _ => None
  | IngressesCreate _ _ => None
  | PodsDeleteCollection _ _ => None
  | DeploymentsPatch _ _ _ _ => None
  | ReleaseCreate _ _ => None
  | CustomResourceDefinitionsCreate _ => None
  | CustomResourceDefinitionsGet name =>
      inl (mkCRD name EmptyString EmptyString NamespaceScoped
             EmptyString EmptyString [])
  | QueueGet => (None, true)
  | RecorderEvent _ _ _ _ => tt
  | Glog _ _ _ => tt
  | Inc _ => tt
  | QueueAdd _ => tt
  | QueueAddRateLimited _ => tt
  | QueueForget _ => tt
  | QueueDone _ => tt
  | QueueShutDown => tt
  | CloseWorkerDone => tt
  | PollerReceive _ _ => true
  end.

(** As [ok], except that the listed kind of call fails with [e]. *)
Definition failReleaseCreate (e : error) (R : Type) (c : Cmd R) : R :=
  match c in Cmd R return R with
  | ReleaseCreate _ _ => Some e
  | c' => ok c'
  end.

Definition failPatch (e : error) (R : Type) (c : Cmd R) : R :=
  match c in Cmd R return R with
  | DeploymentsPatch _ _ _ _ => Some e
  | c' => ok c'
  end.

Definition failDeleteCollection (e : error) (R : Type) (c : Cmd R) : R :=
  match c in Cmd R return R with
  | PodsDeleteCollection _ _ => Some e
  | c' => ok c'
  end.


(** As [ok], except that the poller's channel is found closed. *)
Definition closedChannel (R : Type) (c : Cmd R) : R :=
  match c in Cmd R return R with
  | PollerReceive _ _ => false
  | c' => ok c'
  end.

Definition stateless (f : forall R : Type, Cmd R -> R) : Handler unit :=
  fun R c s => (f R c, s).

(** Definition reads answered from a list, one per read; once the list
    is used up a read shows no condition. *)
Definition reads : Handler (list (CustomResourceDefinition + error)) :=
  fun R c s =>
    match c in Cmd R return R * list (CustomResourceDefinition + error) with
    | CustomResourceDefinitionsGet name =>
        match s with
        | r :: rest => (r, rest)
        | [] => (ok (CustomResourceDefinitionsGet name), [])
        end
    | c' => (ok c', s)
    end.

End Scripted.

(** The rate-limited work queue of client-go as the worker sees it: the
    pending keys in order, the [dirty] and [processing] sets, the
    per-key failure counts of the exponential limiter
    ([DefaultControllerRateLimiter]: 5ms doubling per failure up to
    1000s) and the keys waiting for their delay.  A [Get] on an empty
    queue answers as at shutdown instead of blocking.  The overall
    token bucket of the default limiter, which knows no keys, is left
    out. *)
Module Workqueue.
Import Go K8s Effects.

Record Queue : Type := mkQueue {
  queue : list string;
  dirty : gset string;
  processing : gset string;
  failures : gmap string nat;
  waiting : list (string * Z);
  shuttingDown : bool
}.

(** Delays in nanoseconds. *)
Definition baseDelay : Z := 5 * 1000000.
Definition maxDelay : Z := 1000 * 1000000000.

(** [NumRequeues] *)
Definition numRequeues (q : Queue) (key : string) : nat :=
  match failures q !! key with Some n => n | None => O end.

(** The delay [When] computes after [n] earlier failures. *)
Definition backoff (n : nat) : Z :=
  Z.min (baseDelay * 2 ^ Z.of_nat n) maxDelay.

(** The delay the next [AddRateLimited] of [key] would get. *)
Definition nextDelay (q : Queue) (key : string) : Z :=
  backoff (numRequeues q key).

Definition add (key : string) (q : Queue) : Queue :=
  if shuttingDown q then q
  else if bool_decide (key ∈ dirty q) then q
  else if bool_decide (key ∈ processing q) then
    mkQueue (queue q) ({[key]} ∪ dirty q) (processing q) (failures q)
      (waiting q) (shuttingDown q)
  else
    mkQueue (queue q ++ [key]) ({[key]} ∪ dirty q) (processing q)
      (failures q) (waiting q) (shuttingDown q).

Definition get (q : Queue) : (option string * bool) * Queue :=
  match queue q with
  | [] => ((None, true), q)
  | key :: rest =>
      ((Some key, false),
       mkQueue rest (dirty q ∖ {[key]}) ({[key]} ∪ processing q)
         (failures q) (waiting q) (shuttingDown q))
  end.

Definition done (key : string) (q : Queue) : Queue :=
  let pending :=
    if bool_decide (key ∈ dirty q) then queue q ++ [key] else queue q in
  mkQueue pending (dirty q) (processing q ∖ {[key]}) (failures q)
    (waiting q) (shuttingDown q).

Definition addRateLimited (key : string) (q : Queue) : Queue :=
  mkQueue (queue q) (dirty q) (processing q)
    (<[key := Datatypes.S (numRequeues q key)]> (failures q))
    (waiting q ++ [(key, nextDelay q key)]) (shuttingDown q).

Definition forget (key : string) (q : Queue) : Queue :=
  mkQueue (queue q) (dirty q) (processing q) (delete key (failures q))
    (waiting q) (shuttingDown q).

Definition shutDown (q : Queue) : Queue :=
  mkQueue (queue q) (dirty q) (processing q) (failures q) (waiting q) true.

(** Queue calls act on the queue; every other call succeeds and leaves
    it alone. *)
Definition handle : Handler Queue :=
  fun R c q =>
    match c in Cmd R return R * Queue with
    | QueueGet => get q
    | QueueAdd key => (tt, add key q)
    | QueueAddRateLimited key => (tt, addRateLimited key q)
    | QueueForget key => (tt, forget key q)
    | QueueDone key => (tt, done key q)
    | QueueShutDown => (tt, shutDown q)
    | PersistentVolumeClaimsCreate _ _ => (None, q)
    | ServicesCreate _ _ => (None, q)
    | IngressesCreate _ _ => (None, q)
    | PodsDeleteCollection _ _ => (None, q)
    | DeploymentsPatch _ _ _ _ => (None, q)
    | ReleaseCreate _ _ => (None, q)
    | CustomResourceDefinitionsCreate _ => (None, q)
    | CustomResourceDefinitionsGet name =>
        (inl (mkCRD name EmptyString EmptyString NamespaceScoped
                EmptyString EmptyString []), q)
    | RecorderEvent _ _ _ _ => (tt, q)
    | Glog _ _ _ => (tt, q)
    | Inc _ => (tt, q)
    | CloseWorkerDone => (tt, q)
    | PollerReceive _ _ => (true, q)
    end.

(** The calls that are not made on the queue. *)
Definition offQueue (R : Type) (c : Cmd R) : bool :=
  match c with
  | QueueGet => false
  | QueueAdd _ => false
  | QueueAddRateLimited _ => false
  | QueueForget _ => false
  | QueueDone _ => false
  | QueueShutDown => false
  | _ => true
  end.

End Workqueue.

(** Values for the platform declarations and a small cluster view, to
    run the controllers on.  A namespace counts as the platform's when
    it has three parts separated by dashes. *)
Module Sample.
Import Go K8s Platform Effects.

Record plan : Type := mkPlan {
  name : string;
  storage : Quantity;
  storageType : bool
}.

Definition decls : Decls :=
  {| AnnotationSetupStorage := "kolihub.io/setup-storage";
     AnnotationApp := "kolihub.io/app";
     AnnotationBuild := "kolihub.io/build";
     AnnotationAutoDeploy := "kolihub.io/autodeploy";
     AnnotationBuildSource := "kolihub.io/source";
     AnnotationGitRemote := "kolihub.io/gitremote";
     AnnotationGitBranch := "kolihub.io/gitbranch";
     AnnotationGitRepository := "kolihub.io/gitrepository";
     AnnotationGitCommitID := "kolihub.io/gitcommitid";
     AnnotationGitAuthorName := "kolihub.io/gitauthor";
     AnnotationGitAuthorAvatar := "kolihub.io/gitavatar";
     AnnotationGitCompare := "kolihub.io/gitcompare";
     AnnotationGitCommitMessage := "kolihub.io/gitmessage";
     AnnotationGitCommitURL := "kolihub.io/gitcommiturl";
     AnnotationGitRevision := "kolihub.io/gitrevision";
     SystemNamespace := "koli-system";
     SchemeGroup := "platform.koli.io";
     SchemeVersion := "v1alpha1";
     PlanResourceName := "plans.platform.koli.io";
     PlanResourceKind := "Plan";
     PlanResourcePlural := "plans";
     ReleaseResourceName := "releases.platform.koli.io";
     ReleaseResourceKind := "Release";
     ReleaseResourcePlural := "releases";
     Plan := plan;
     PlanName := name;
     PlanStorage := storage;
     IsStorageType := storageType;
     NamespaceMeta := list string;
     NewNamespaceMetadata := fun ns => Split ns "-"%char;
     GetNamespaceMetadata := fun d => Split (dpNamespace d) "-"%char;
     IsValid := fun parts => (length parts =? 3)%nat;
     Valid := fun parts => (length parts =? 3)%nat;
     GetStoragePlan := fun d =>
       match dpLabels d !! "kolihub.io/storage-plan" with
       | Some v => (v, true)
       | None => (EmptyString, false)
       end;
     SHA := string;
     NewSha := fun s => if (String.length s <? 7)%nat then None else Some s;
     Short := fun s => substring 0 7 s |}.

Definition gold : plan := mkPlan "gold" "10Gi" true.

(** A deployment of the platform asking for storage and for a build. *)
Definition web : Deployment :=
  {| dpNamespace := "prod-acme-koli";
     dpName := "web";
     dpUID := "7f0c";
     dpResourceVersion := "41";
     dpGeneration := 1;
     dpObservedGeneration := 1;
     dpLabels := <[ "kolihub.io/storage-plan" := "gold" ]>
                   {[ "kolihub.io/type" := "app" ]};
     dpAnnotations :=
       <[ "kolihub.io/setup-storage" := "true" ]>
       (<[ "kolihub.io/build" := "true" ]>
        (<[ "kolihub.io/gitremote" := "https://git.example/acme/web.git" ]>
         {[ "kolihub.io/gitbranch" := "master" ]}));
     dpDeletionTimestamp := None;
     dpContainers := [] |}.

(** The same deployment without the source-control remote. *)
Definition webNoRemote : Deployment :=
  {| dpNamespace := "prod-acme-koli";
     dpName := "web";
     dpUID := "7f0c";
     dpResourceVersion := "41";
     dpGeneration := 1;
     dpObservedGeneration := 1;
     dpLabels := dpLabels web;
     dpAnnotations := <[ "kolihub.io/setup-storage" := "true" ]>
                        {[ "kolihub.io/build" := "true" ]};
     dpDeletionTimestamp := None;
     dpContainers := [] |}.

(** A store holding [d] under [key] and nothing else. *)
Definition storeOf {A : Type} (key : string) (d : A) : Store A :=
  {| GetByKey := fun k => if String.eqb k key then Found d else NotFound;
     ListAll := [d] |}.

Definition emptyStore {A : Type} : Store A :=
  {| GetByKey := fun _ => NotFound; ListAll := [] |}.

Definition planStore (plans : list plan) : Store plan :=
  {| GetByKey := fun k =>
       match List.find (fun p => String.eqb (name p) k) plans with
       | Some p => Found p
       | None => NotFound
       end;
     ListAll := plans |}.

Definition webKey : string := "prod-acme-koli/web".

(** The plans definition as the API server shows it with the given
    conditions. *)
Definition plansCRD (conds : list CRDCondition) : CustomResourceDefinition :=
  mkCRD "plans.platform.koli.io" "platform.koli.io" "v1alpha1"
    NamespaceScoped "plans" "Plan" conds.

Definition namesAccepted : CRDCondition :=
  mkCRDCondition NamesAccepted ConditionTrue "NoConflicts".
Definition namesRejected : CRDCondition :=
  mkCRDCondition NamesAccepted ConditionFalse "KindConflict".
Definition established : CRDCondition :=
  mkCRDCondition Established ConditionTrue "InitialNamesAccepted".

End Sample.

(* ===================================================================== *)
(** * Properties *)
(* ===================================================================== *)

Import Go K8s Platform Effects.

Unset Implicit Arguments.

(** ** Strings *)

Lemma append_nil_l (t : string) : EmptyString +:+ t = t.
Proof. reflexivity. Qed.

Lemma append_cons_l (c : ascii) (s t : string) :
  String c s +:+ t = String c (s +:+ t).
Proof. reflexivity. Qed.

Ltac appends := rewrite ?append_cons_l, ?append_nil_l.

Lemma append_empty_r (s : string) : s +:+ EmptyString = s.
Proof.
  induction s as [|c s IH]; appends; [reflexivity | now rewrite IH].
Qed.

Lemma append_assoc' (a b c : string) : (a +:+ b) +:+ c = a +:+ (b +:+ c).
Proof.
  induction a as [|x a IH]; appends; [reflexivity | now rewrite IH].
Qed.

Lemma Split_no_sep (sep : ascii) (s : string) :
  hasByte sep s = false -> Split s sep = [s].
Proof.
  induction s as [|c s IH]; simpl; intros Hs; [reflexivity|].
  apply orb_false_iff in Hs as [Hc Hs].
  rewrite Hc, (IH Hs). reflexivity.
Qed.

(** A key [ns/name] made of two slash-free parts splits into them. *)
Lemma Split_key (ns name : string) :
  hasByte "/"%char ns = false ->
  hasByte "/"%char name = false ->
  Split (ns +:+ "/" +:+ name) "/"%char = [ns; name].
Proof.
  intros Hns Hname. rewrite (append_cons_l "/" EmptyString name), append_nil_l.
  induction ns as [|c ns IH]; appends; simpl.
  - now rewrite (Split_no_sep _ _ Hname).
  - simpl in Hns. apply orb_false_iff in Hns as [Hc Hns].
    rewrite Hc, (IH Hns). reflexivity.
Qed.

(** ** Formats *)

(** The texts [Sprintf] gives for the formats the properties quote. *)

Lemma Sprintf_selector (key val : string) :
  Sprintf "%s=%s" [key; val] = key +:+ "=" +:+ val.
Proof. simpl. now rewrite append_empty_r. Qed.

Lemma Sprintf_pvc_name (name : string) :
  Sprintf "d-%s" [name] = "d-" +:+ name.
Proof. simpl. now rewrite append_empty_r. Qed.

Lemma Sprintf_invalid_addon (ty : string) :
  Sprintf "invalid add-on type (%s)" [ty]
  = "invalid add-on type (" +:+ ty +:+ ")".
Proof. reflexivity. Qed.

Lemma Sprintf_plan_not_found (planName : string) :
  Sprintf ("Storage Plan " +:+ q "%s" +:+ " not found") [planName]
  = "Storage Plan " +:+ q planName +:+ " not found".
Proof.
  unfold q. cbn. rewrite !append_assoc'. reflexivity.
Qed.

Lemma Sprintf_missing_key (key : string) :
  Sprintf "Missing required key '%s'" [key]
  = "Missing required key '" +:+ key +:+ "'".
Proof. reflexivity. Qed.

Lemma Sprintf_name_conflict (reason : string) :
  Sprintf "Name conflict: %v" [reason] = "Name conflict: " +:+ reason.
Proof. simpl. now rewrite append_empty_r. Qed.

Lemma Sprintf_annotation_patch_1 (key : string) :
  Sprintf ("{" +:+ q "metadata" +:+ ": {" +:+ q "annotations" +:+ ": {"
           +:+ q "%s" +:+ ": " +:+ q "false" +:+ "}}}") [key]
  = annotationPatch key "false".
Proof.
  unfold annotationPatch, q. cbn. rewrite !append_assoc'. reflexivity.
Qed.

Lemma Sprintf_annotation_patch_2 (key val : string) :
  Sprintf ("{" +:+ q "metadata" +:+ ": {" +:+ q "annotations" +:+ ": {"
           +:+ q "%s" +:+ ": " +:+ q "%s" +:+ "}}}") [key; val]
  = annotationPatch key val.
Proof.
  unfold annotationPatch, q. cbn. rewrite !append_assoc'. reflexivity.
Qed.

Arguments Sprintf : simpl never.

(** ** Running programs *)

Lemma run_bind {S A B : Type} (h : Handler S) (p : Prog A) (f : A -> Prog B) :
  forall s,
    run h (bind p f) s =
    let '(a, s1, t1) := run h p s in
    let '(b, s2, t2) := run h (f a) s1 in
    (b, s2, t1 ++ t2).
Proof.
  induction p as [a | R c k IH]; intros s; simpl.
  - destruct (run h (f a) s) as [[b s2] t2]. reflexivity.
  - destruct (h R c s) as [r s1]. rewrite IH.
    destruct (run h (k r) s1) as [[a s2] t1].
    destruct (run h (f a) s2) as [[b s3] t2]. reflexivity.
Qed.

Lemma callsOnly_bind {A B : Type} (ok : forall R : Type, Cmd R -> bool)
    (p : Prog A) (f : A -> Prog B) :
  callsOnly ok p -> (forall a, callsOnly ok (f a)) -> callsOnly ok (bind p f).
Proof.
  induction p as [a | R c k IH]; simpl; intros Hp Hf; [apply Hf|].
  destruct Hp as [Hc Hk]. split; [exact Hc|]. intros r. apply IH; auto.
Qed.

Lemma callsOnly_run {S A : Type} (ok : forall R : Type, Cmd R -> bool)
    (h : Handler S) (p : Prog A) :
  callsOnly ok p ->
  forall s, Forall (fun e => ok _ (evCmd e) = true) (trace (run h p s)).
Proof.
  induction p as [a | R c k IH]; simpl; intros Hp s; [constructor|].
  destruct Hp as [Hc Hk]. destruct (h R c s) as [r s1].
  specialize (IH r (Hk r) s1).
  destruct (run h (k r) s1) as [[a s2] t]. constructor; assumption.
Qed.

(** A trace of route and log calls shows no claim create, no patch and
    no recorded event. *)
Lemma routeOrLog_quiet (t : list Event) :
  Forall (fun e => routeOrLog (evCmd e) = true) t ->
  pvcCreates t = [] /\ patches t = [] /\ recorded t = [].
Proof.
  induction 1 as [|[R c r] t Hc _ IH]; [repeat split|].
  destruct IH as (Hpvc & Hpatch & Hrec).
  unfold pvcCreates, patches, recorded in *.
  destruct c; try discriminate Hc; simpl; repeat split; assumption.
Qed.

(** A program that starts with route and log calls only: its run is
    the run of the rest, after a prefix of such calls. *)
Lemma run_bind_quiet {S A B : Type} (h : Handler S) (p : Prog A)
    (f : A -> Prog B) (s : S) :
  callsOnly (@routeOrLog) p ->
  exists a s1 t1,
    Forall (fun e => routeOrLog (evCmd e) = true) t1 /\
    run h (bind p f) s =
    let '(b, s2, t2) := run h (f a) s1 in (b, s2, t1 ++ t2).
Proof.
  intros Hq. pose proof (callsOnly_run (@routeOrLog) h p Hq s) as Ht.
  rewrite run_bind. destruct (run h p s) as [[a s1] t1].
  exists a, s1, t1. split; [exact Ht | reflexivity].
Qed.

Lemma pvcCreates_after_quiet (t1 t2 : list Event) :
  Forall (fun e => routeOrLog (evCmd e) = true) t1 ->
  pvcCreates (t1 ++ t2) = pvcCreates t2.
Proof.
  intros Hq. destruct (routeOrLog_quiet t1 Hq) as (Hp & _ & _).
  unfold pvcCreates in *. now rewrite omap_app, Hp.
Qed.

Lemma patches_after_quiet (t1 t2 : list Event) :
  Forall (fun e => routeOrLog (evCmd e) = true) t1 ->
  patches (t1 ++ t2) = patches t2.
Proof.
  intros Hq. destruct (routeOrLog_quiet t1 Hq) as (_ & Hp & _).
  unfold patches in *. now rewrite omap_app, Hp.
Qed.

Lemma recorded_after_quiet (t1 t2 : list Event) :
  Forall (fun e => routeOrLog (evCmd e) = true) t1 ->
  recorded (t1 ++ t2) = recorded t2.
Proof.
  intros Hq. destruct (routeOrLog_quiet t1 Hq) as (_ & _ & Hp).
  unfold recorded in *. now rewrite omap_app, Hp.
Qed.

(** Name the answers handler [h] gives to the calls of the run in the
    goal, in the order the program makes them, and split on the errors
    and on whether an error is an "already exists" status. *)
Ltac answers h :=
  repeat (simpl;
          match goal with
          | |- context [h ?R ?c ?s] =>
              let r := fresh "r" in
              let s' := fresh "s" in
              destruct (h R c s) as [r s'];
              try (destruct r as [?e|])
          | |- context [IsAlreadyExists ?e] =>
              is_var e; destruct (IsAlreadyExists e) eqn:?
          end);
  simpl.

(** ** Add-on lookup *)

Section AddonLookup.
Import Spec.
Variables (Clientset SharedIndexInformer : Type).

(** C10. [GetApp] returns the Redis implementation and no error for
    type [redis], the Memcached implementation and no error for type
    [memcached], and for every other type, the declared [mysql]
    included, a nil interface with the error
    [invalid add-on type (<type>)]. *)
Theorem GetApp_by_type (a : Addon) (c : Clientset) (inf : SharedIndexInformer) :
  (Type_ (AddonSpec_ a) = redis ->
     GetApp a c inf = (Some (Redis c a inf), None)) /\
  (Type_ (AddonSpec_ a) = memcached ->
     GetApp a c inf = (Some (Memcached c a inf), None)) /\
  (Type_ (AddonSpec_ a) <> redis -> Type_ (AddonSpec_ a) <> memcached ->
     GetApp a c inf =
     (None, Some (mkError false
                    ("invalid add-on type (" +:+ Type_ (AddonSpec_ a) +:+ ")")))) /\
  (Type_ (AddonSpec_ a) = mySQL ->
     GetApp a c inf =
     (None, Some (mkError false "invalid add-on type (mysql)"))).
Proof.
  unfold GetApp. repeat split.
  - intros ->. reflexivity.
  - intros ->. reflexivity.
  - intros Hr Hm.
    apply String.eqb_neq in Hr. apply String.eqb_neq in Hm.
    rewrite Hr, Hm. unfold Errorf. rewrite Sprintf_invalid_addon.
    destruct (String.eqb _ mySQL); reflexivity.
  - intros ->. reflexivity.
Qed.

End AddonLookup.

(** [GetApp] on one add-on of each declared type. *)
Lemma GetApp_by_type_witness :
  let mk ty := Spec.mkAddon "cache" "prod-acme-koli"
                 (Spec.mkAddonSpec ty "redis" "3.2" 1 6379 [] []) in
  Spec.GetApp (mk "redis") tt tt = (Some (Spec.Redis tt (mk "redis") tt), None) /\
  Spec.GetApp (mk "memcached") tt tt
    = (Some (Spec.Memcached tt (mk "memcached") tt), None) /\
  Spec.GetApp (mk "postgres") tt tt
    = (None, Some (mkError false "invalid add-on type (postgres)")) /\
  Spec.GetApp (mk "mysql") tt tt
    = (None, Some (mkError false "invalid add-on type (mysql)")).
Proof.
  intros mk.
  split; [| split; [| split]].
  - apply (proj1 (GetApp_by_type unit unit (mk "redis") tt tt)). reflexivity.
  - apply (proj1 (proj2 (GetApp_by_type unit unit (mk "memcached") tt tt))). reflexivity.
  - apply (proj1 (proj2 (proj2 (GetApp_by_type unit unit (mk "postgres") tt tt))));
      discriminate.
  - apply (proj2 (proj2 (proj2 (GetApp_by_type unit unit (mk "mysql") tt tt)))).
    reflexivity.
Defined.

(** ** The application controller *)

Section AppManager.
Context `{Decls}.
Import AppManagerController.

(** C8. When the key [ns/name] is absent from the deployment cache,
    the sync returns success whatever the cleanup call answers; for a
    platform namespace it issues exactly one delete-collection call
    for the pods of that namespace selected by the single equality
    [<app label>=<name>], and logs a warning when that call fails; for
    any other namespace it issues no delete-collection call. *)
Theorem syncHandler_orphan_cleanup :
  forall (S : Type) (h : Handler S) (s : S) (c : Controller)
         (ns name : string),
    hasByte "/"%char ns = false ->
    hasByte "/"%char name = false ->
    GetByKey (dpInf c) (ns +:+ "/" +:+ name) = NotFound ->
    let o := run h (syncHandler c (ns +:+ "/" +:+ name)) s in
    result o = None /\
    (IsValid (NewNamespaceMetadata ns) = true ->
     exists resp,
       deleteCollections (trace o)
         = [(ns, AnnotationApp +:+ "=" +:+ name, resp)] /\
       (notNil resp = true ->
        In (Warning, 0%nat,
            Sprintf "%s - failed removing orphan slugbuilds"
              [ns +:+ "/" +:+ name])
           (logged (trace o)))) /\
    (IsValid (NewNamespaceMetadata ns) = false ->
     deleteCollections (trace o) = []).
Proof.
  intros S h s c ns name Hns Hname Hget o. subst o.
  unfold syncHandler. rewrite Hget, (Split_key _ _ Hns Hname).
  unfold cleanBuilds. rewrite Sprintf_selector.
  destruct (IsValid (NewNamespaceMetadata ns)) eqn:Hvalid.
  - answers h.
    + split; [reflexivity|]. split; [|discriminate].
      intros _. eexists. split; [reflexivity|].
      intros _. cbn. auto.
    + split; [reflexivity|]. split; [|discriminate].
      intros _. eexists. split; [reflexivity|]. discriminate.
  - answers h. split; [reflexivity|]. split; [discriminate|]. reflexivity.
Qed.

End AppManager.

(** The cleanup of [prod-acme-koli/web], absent from the cache, against
    a control plane that refuses the delete. *)
Lemma syncHandler_orphan_cleanup_witness :
  let c := AppManagerController.mkController (H := Sample.decls)
             Sample.emptyStore (Sample.planStore []) "koli.io" in
  let h := Scripted.stateless
             (Scripted.failDeleteCollection (mkError false "forbidden")) in
  let o := run h (AppManagerController.syncHandler c Sample.webKey) tt in
  (hasByte "/"%char "prod-acme-koli" = false /\
   hasByte "/"%char "web" = false /\
   GetByKey (AppManagerController.dpInf c) Sample.webKey = NotFound) /\
  result o = None /\
  deleteCollections (trace o)
    = [("prod-acme-koli", "kolihub.io/app=web", Some (mkError false "forbidden"))].
Proof.
  intros c h o.
  split; [repeat split|].
  destruct (syncHandler_orphan_cleanup (H := Sample.decls) unit h tt c
              "prod-acme-koli" "web" eq_refl eq_refl eq_refl)
    as [Hres [Hvalid _]].
  split; [exact Hres|].
  destruct (Hvalid eq_refl) as [resp [Hdel _]].
  reflexivity.
Defined.

(** ** Storage provisioning *)

Section Storage.
Context `{Decls}.
Import AppManagerController.

Lemma findPlan_none_acc (plans : list Plan) (planName : string) :
  (forall p, In p plans -> PlanName p = planName -> IsStorageType p = false) ->
  forall acc,
    fold_left
      (fun plan p =>
         if String.eqb (PlanName p) planName && IsStorageType p
         then Some p else plan)
      plans acc = acc.
Proof.
  induction plans as [|p plans IH]; intros Hno acc; simpl; [reflexivity|].
  rewrite IH by (intros p' Hin; apply Hno; now right).
  destruct (String.eqb (PlanName p) planName) eqn:Hname; [|reflexivity].
  apply String.eqb_eq in Hname.
  rewrite (Hno p (or_introl eq_refl) Hname). reflexivity.
Qed.

(** No cached plan with that name and of storage type: the lookup
    leaves [plan] nil. *)
Lemma findPlan_none (plans : list Plan) (planName : string) :
  (forall p, In p plans -> PlanName p = planName -> IsStorageType p = false) ->
  findPlan plans planName = None.
Proof. intros Hno. apply findPlan_none_acc, Hno. Qed.

Lemma findPlan_some_acc (plans : list Plan) (planName : string) (plan : Plan) :
  forall acc,
    fold_left
      (fun plan p =>
         if String.eqb (PlanName p) planName && IsStorageType p
         then Some p else plan)
      plans acc = Some plan ->
    (In plan plans /\ PlanName plan = planName /\ IsStorageType plan = true)
    \/ acc = Some plan.
Proof.
  induction plans as [|p plans IH]; intros acc Hfold; simpl in *; [now right|].
  destruct (IH _ Hfold) as [(Hin & Hn & Ht) | Hacc].
  - left. auto.
  - destruct (String.eqb (PlanName p) planName) eqn:Hname;
      destruct (IsStorageType p) eqn:Hty; simpl in Hacc; auto.
    injection Hacc as ->. apply String.eqb_eq in Hname. left. auto.
Qed.

(** The plan the lookup resolves to is a cached plan with that exact
    name and of storage type. *)
Lemma findPlan_some (plans : list Plan) (planName : string) (plan : Plan) :
  findPlan plans planName = Some plan ->
  In plan plans /\ PlanName plan = planName /\ IsStorageType plan = true.
Proof.
  intros Hfind. destruct (findPlan_some_acc _ _ _ None Hfind) as [Hok | Hnone];
    [exact Hok | discriminate].
Qed.

Lemma addDefaultRoute_calls (c : Controller) (d : Deployment) :
  callsOnly (@routeOrLog) (addDefaultRoute c d).
Proof.
  unfold addDefaultRoute. destruct (_ || _); simpl; [exact I|].
  split; [reflexivity|]. intros r.
  destruct (notNil r && negb (isAlreadyExists r)); simpl; auto.
Qed.

(** Discharge [callsOnly routeOrLog] for the opening steps of
    [syncHandler]. *)
Ltac quiet :=
  first
    [ apply addDefaultRoute_calls
    | match goal with
      | |- callsOnly _ (if ?b then _ else _) => destruct b
      | |- callsOnly _ (match ?l with [] => _ | _ :: _ => _ end) =>
          destruct l as [|[[?|] [?|]] ?]
      end; simpl; auto ].

(** Split the opening steps off the run of handler [h] in the goal. *)
Ltac peel h :=
  match goal with
  | |- context [run h (bind ?p ?f) ?s] =>
      let Hq := fresh "Hquiet" in
      destruct (run_bind_quiet h p f s ltac:(quiet)) as (? & ? & ? & Hq & ->);
      cbv beta
  end.

(** Drop the opening steps from what the trace shows. *)
Ltac drop_quiet :=
  repeat first
    [ rewrite pvcCreates_after_quiet by assumption
    | rewrite patches_after_quiet by assumption
    | rewrite recorded_after_quiet by assumption ].

(** Replace the facts about the deployment the cache holds by their
    values, wherever the program consults them, and set the opening
    steps of the sync aside. *)
Ltac storage_step h Hget Hdel Hvalid Hplan Hmark :=
  unfold syncHandler; rewrite Hget, Hdel;
  revert Hvalid Hplan Hmark;
  match goal with
  | |- Valid ?m = true -> GetStoragePlan ?d = _ -> HasSetupPVCAnnotation ?d = true -> _ =>
      destruct (Valid m); [|discriminate];
      destruct (GetStoragePlan d) as [pn ex];
      destruct (HasSetupPVCAnnotation d); [|discriminate];
      intros _ [= -> ->] _
  end;
  simpl negb; cbv iota;
  do 3 peel h.

(** C3. For a cached deployment of the platform, not marked for
    deletion, that carries a storage-plan reference and the
    setup-storage marker while no cached plan has that exact name and
    is of storage type: the sync records exactly one event, a
    [PlanNotFound] warning against the deployment, returns an error,
    and issues neither a patch on the deployment nor a claim create, so
    the marker stays as it is. *)
Theorem syncHandler_plan_not_found :
  forall (S : Type) (h : Handler S) (s : S) (c : Controller)
         (key : string) (d : Deployment) (planName : string),
    GetByKey (dpInf c) key = Found d ->
    dpDeletionTimestamp d = None ->
    Valid (GetNamespaceMetadata d) = true ->
    GetStoragePlan d = (planName, true) ->
    HasSetupPVCAnnotation d = true ->
    (forall p, In p (ListAll (planInf c)) ->
               PlanName p = planName -> IsStorageType p = false) ->
    let o := run h (syncHandler c key) s in
    recorded (trace o)
      = [(ObjDeployment d, EventTypeWarning, "PlanNotFound",
          "Storage Plan " +:+ q planName +:+ " not found")] /\
    notNil (result o) = true /\
    patches (trace o) = [] /\
    pvcCreates (trace o) = [].
Proof.
  intros S h s c key d planName Hget Hdel Hvalid Hplan Hmark Hno o. subst o.
  storage_step h Hget Hdel Hvalid Hplan Hmark.
  rewrite (findPlan_none _ _ Hno), Sprintf_plan_not_found.
  answers h. unfold trace, result. simpl. drop_quiet.
  repeat split; reflexivity.
Qed.

(** What the storage step does once the plan is resolved: one claim
    create; on an error other than "already exists" a [ProvisionError]
    warning, an error result and no patch; otherwise one merge patch
    that sets the setup-storage annotation to [false], and an error
    result exactly when the patch fails. *)
Lemma syncHandler_storage_step :
  forall (S : Type) (h : Handler S) (s : S) (c : Controller)
         (key : string) (d : Deployment) (planName : string) (plan : Plan),
    GetByKey (dpInf c) key = Found d ->
    dpDeletionTimestamp d = None ->
    Valid (GetNamespaceMetadata d) = true ->
    GetStoragePlan d = (planName, true) ->
    HasSetupPVCAnnotation d = true ->
    findPlan (ListAll (planInf c)) planName = Some plan ->
    let o := run h (syncHandler c key) s in
    exists cresp,
      pvcCreates (trace o) = [(dpNamespace d, newPVC d plan, cresp)] /\
      if notNil cresp && negb (isAlreadyExists cresp) then
        patches (trace o) = [] /\ notNil (result o) = true
      else
        exists presp,
          patches (trace o)
            = [(dpNamespace d, dpName d, MergePatchType,
                annotationPatch AnnotationSetupStorage "false", presp)] /\
          notNil (result o) = notNil presp.
Proof.
  intros S h s c key d planName plan Hget Hdel Hvalid Hplan Hmark Hfind o.
  subst o. storage_step h Hget Hdel Hvalid Hplan Hmark.
  rewrite Hfind. unfold setupStoragePatchData.
  rewrite Sprintf_annotation_patch_1.
  answers h; unfold trace, result; simpl; drop_quiet;
    (eexists; split; [reflexivity|]; simpl;
     try match goal with H : IsAlreadyExists _ = _ |- _ => rewrite H end;
     simpl; first [ split; reflexivity
                  | eexists; split; reflexivity ]).
Qed.

Lemma HasSetupPVCAnnotation_cleared (d : Deployment) :
  HasSetupPVCAnnotation (withAnnotation AnnotationSetupStorage "false" d)
  = false.
Proof.
  unfold HasSetupPVCAnnotation, index. simpl.
  rewrite lookup_insert_eq. reflexivity.
Qed.

(** C6. When the claim create of a sync succeeds (the claim is new),
    the sync applies one merge patch to the source deployment whose
    document sets only the setup-storage annotation, to [false]; the
    sync returns an error whenever that patch fails and none when it
    succeeds.  A deployment so patched is not provisioned again: its
    sync creates no claim, applies no patch and returns no error. *)
Theorem syncHandler_clears_setup_storage :
  forall (S : Type) (h : Handler S) (s : S) (c : Controller)
         (key : string) (d : Deployment) (planName : string) (plan : Plan),
    GetByKey (dpInf c) key = Found d ->
    dpDeletionTimestamp d = None ->
    Valid (GetNamespaceMetadata d) = true ->
    GetStoragePlan d = (planName, true) ->
    HasSetupPVCAnnotation d = true ->
    findPlan (ListAll (planInf c)) planName = Some plan ->
    let o := run h (syncHandler c key) s in
    pvcCreates (trace o) = [(dpNamespace d, newPVC d plan, None)] ->
    (exists presp,
       patches (trace o)
         = [(dpNamespace d, dpName d, MergePatchType,
             annotationPatch AnnotationSetupStorage "false", presp)] /\
       (notNil presp = true -> notNil (result o) = true) /\
       (presp = None -> result o = None)) /\
    (forall (S' : Type) (h' : Handler S') (s' : S') (c' : Controller),
       GetByKey (dpInf c') key
         = Found (withAnnotation AnnotationSetupStorage "false" d) ->
       let o' := run h' (syncHandler c' key) s' in
       pvcCreates (trace o') = [] /\ patches (trace o') = [] /\
       result o' = None).
Proof.
  intros S h s c key d planName plan Hget Hdel Hvalid Hplan Hmark Hfind o Hnew.
  split.
  - pose proof (syncHandler_storage_step S h s c key d planName plan
                  Hget Hdel Hvalid Hplan Hmark Hfind) as Hstep.
    cbv zeta in Hstep. fold o in Hstep. destruct Hstep as [cresp [Hc Hrest]].
    rewrite Hnew in Hc. assert (cresp = None) as -> by congruence.
    simpl in Hrest. destruct Hrest as [presp [Hp Hres]].
    exists presp. split; [exact Hp|]. split.
    + intros Hfail. now rewrite Hres.
    + intros ->. simpl in Hres. destruct (result o); [discriminate|reflexivity].
  - intros S' h' s' c' Hget' o'. subst o'.
    unfold syncHandler. rewrite Hget'.
    pose proof (HasSetupPVCAnnotation_cleared d) as Hcleared.
    revert Hcleared.
    set (d' := withAnnotation AnnotationSetupStorage "false" d).
    destruct (HasSetupPVCAnnotation d'); [discriminate|intros _].
    change (dpDeletionTimestamp d') with (dpDeletionTimestamp d).
    rewrite Hdel.
    destruct (Valid (GetNamespaceMetadata d')); [|answers h'; auto].
    destruct (GetStoragePlan d') as [pn ex]. rewrite orb_true_r.
    simpl negb. cbv iota. do 3 peel h'.
    answers h'. unfold trace, result. simpl. drop_quiet. auto.
Qed.

(** On the fake control plane route and log calls leave the claims
    alone. *)
Lemma fake_quiet_pvcs {A : Type} (p : Prog A) :
  callsOnly (@routeOrLog) p ->
  forall cl, Fake.pvcs (final (run Fake.handle p cl)) = Fake.pvcs cl.
Proof.
  induction p as [a | R c k IH]; simpl; intros Hq cl; [reflexivity|].
  destruct Hq as [Hc Hk].
  destruct c; try discriminate Hc; simpl.
  - unfold Fake.create. destruct (Fake.services cl !! _);
      match goal with
      | |- context [run Fake.handle (k ?r) ?cl'] =>
          specialize (IH r (Hk r) cl');
          destruct (run Fake.handle (k r) cl') as [[a s2] t]
      end; exact IH.
  - unfold Fake.create. destruct (Fake.ingresses cl !! _);
      match goal with
      | |- context [run Fake.handle (k ?r) ?cl'] =>
          specialize (IH r (Hk r) cl');
          destruct (run Fake.handle (k r) cl') as [[a s2] t]
      end; exact IH.
  - specialize (IH tt (Hk tt) cl).
    destruct (run Fake.handle (k tt) cl) as [[a s2] t]. exact IH.
Qed.

Lemma run_bind_quiet_fake {A B : Type} (p : Prog A) (f : A -> Prog B)
    (cl : Fake.Cluster) :
  callsOnly (@routeOrLog) p ->
  exists a cl1 t1,
    Forall (fun e => routeOrLog (evCmd e) = true) t1 /\
    Fake.pvcs cl1 = Fake.pvcs cl /\
    run Fake.handle (bind p f) cl =
    let '(b, cl2, t2) := run Fake.handle (f a) cl1 in (b, cl2, t1 ++ t2).
Proof.
  intros Hq.
  pose proof (callsOnly_run (@routeOrLog) Fake.handle p Hq cl) as Ht.
  pose proof (fake_quiet_pvcs p Hq cl) as Hs.
  rewrite run_bind. destruct (run Fake.handle p cl) as [[a cl1] t1].
  exists a, cl1, t1. repeat split; assumption.
Qed.

Ltac peel_fake :=
  match goal with
  | |- context [run Fake.handle (bind ?p ?f) ?cl] =>
      let Hq := fresh "Hquiet" in
      let Hs := fresh "Hpvcs" in
      destruct (run_bind_quiet_fake p f cl ltac:(quiet))
        as (? & ? & ? & Hq & Hs & ->);
      cbv beta
  end.

(** One sync of the storage step on the fake control plane: no error;
    the claim is stored under its name when the name is free, and the
    create collides when it is taken. *)
Lemma fake_storage_sync :
  forall (c : Controller) (key : string) (d : Deployment)
         (planName : string) (plan : Plan) (cl : Fake.Cluster),
    GetByKey (dpInf c) key = Found d ->
    dpDeletionTimestamp d = None ->
    Valid (GetNamespaceMetadata d) = true ->
    GetStoragePlan d = (planName, true) ->
    HasSetupPVCAnnotation d = true ->
    findPlan (ListAll (planInf c)) planName = Some plan ->
    let k := (dpNamespace d, "d-" +:+ dpName d) in
    let o := run Fake.handle (syncHandler c key) cl in
    result o = None /\
    match Fake.pvcs cl !! k with
    | Some _ =>
        Fake.pvcs (final o) = Fake.pvcs cl /\
        exists e, pvcCreates (trace o) = [(dpNamespace d, newPVC d plan, Some e)]
                  /\ IsAlreadyExists e = true
    | None =>
        Fake.pvcs (final o) = <[k := newPVC d plan]> (Fake.pvcs cl) /\
        pvcCreates (trace o) = [(dpNamespace d, newPVC d plan, None)]
    end.
Proof.
  intros c key d planName plan cl Hget Hdel Hvalid Hplan Hmark Hfind k o.
  subst o k.
  unfold syncHandler; rewrite Hget, Hdel.
  revert Hvalid Hplan Hmark.
  destruct (Valid (GetNamespaceMetadata d)); [|discriminate].
  destruct (GetStoragePlan d) as [pn ex].
  destruct (HasSetupPVCAnnotation d); [|discriminate].
  intros _ [= -> ->] _.
  simpl negb. cbv iota. do 3 peel_fake.
  rewrite Hfind. simpl. unfold Fake.create. simpl pvcName.
  rewrite Sprintf_pvc_name.
  match goal with
  | H1 : Fake.pvcs ?c3 = Fake.pvcs ?c2,
    H2 : Fake.pvcs ?c2 = Fake.pvcs ?c1,
    H3 : Fake.pvcs ?c1 = Fake.pvcs cl |- _ =>
      rewrite H1, H2, H3
  end.
  destruct (Fake.pvcs cl !! (dpNamespace d, "d-" +:+ dpName d)); simpl;
    unfold trace, result, final; simpl; drop_quiet; simpl.
  - split; [reflexivity|]. split; [reflexivity|].
    eexists. split; reflexivity.
  - split; [reflexivity|]. split; reflexivity.
Qed.

(** C5. The claim of a deployment with a resolved plan is named [d-]
    followed by the deployment name, in the deployment's namespace, and
    requests the plan's storage.  A create that collides on that name
    does not fail the sync: it goes on to the patch and returns an
    error only when the patch fails.  On a control plane that refuses
    a create under a taken name, a second sync of the unchanged
    deployment collides, returns no error and leaves the claims as the
    first sync left them, with the one claim under that name. *)
Theorem syncHandler_claim_idempotent :
  forall (c : Controller) (key : string) (d : Deployment)
         (planName : string) (plan : Plan),
    GetByKey (dpInf c) key = Found d ->
    dpDeletionTimestamp d = None ->
    Valid (GetNamespaceMetadata d) = true ->
    GetStoragePlan d = (planName, true) ->
    HasSetupPVCAnnotation d = true ->
    findPlan (ListAll (planInf c)) planName = Some plan ->
    let pvc := newPVC d plan in
    let k := (dpNamespace d, "d-" +:+ dpName d) in
    (pvcName pvc = "d-" +:+ dpName d /\
     pvcNamespace pvc = dpNamespace d /\
     pvcRequests pvc = {[ ResourceStorage := PlanStorage plan ]}) /\
    (forall (S : Type) (h : Handler S) (s : S) (e : error),
       let o := run h (syncHandler c key) s in
       pvcCreates (trace o) = [(dpNamespace d, pvc, Some e)] ->
       IsAlreadyExists e = true ->
       exists presp,
         patches (trace o)
           = [(dpNamespace d, dpName d, MergePatchType,
               annotationPatch AnnotationSetupStorage "false", presp)] /\
         notNil (result o) = notNil presp) /\
    (forall cl : Fake.Cluster,
       let o1 := run Fake.handle (syncHandler c key) cl in
       let o2 := run Fake.handle (syncHandler c key) (final o1) in
       result o1 = None /\ result o2 = None /\
       (exists e, pvcCreates (trace o2) = [(dpNamespace d, pvc, Some e)]
                  /\ IsAlreadyExists e = true) /\
       Fake.pvcs (final o2) = Fake.pvcs (final o1) /\
       is_Some (Fake.pvcs (final o2) !! k) /\
       (Fake.pvcs cl !! k = None ->
        Fake.pvcs (final o2) = <[k := pvc]> (Fake.pvcs cl) /\
        size (Fake.pvcs (final o2)) = Datatypes.S (size (Fake.pvcs cl)))).
Proof.
  intros c key d planName plan Hget Hdel Hvalid Hplan Hmark Hfind pvc k.
  split; [|split].
  - subst pvc. unfold newPVC. simpl. rewrite Sprintf_pvc_name. auto.
  - intros S h s e o Hcreate Hae.
    pose proof (syncHandler_storage_step S h s c key d planName plan
                  Hget Hdel Hvalid Hplan Hmark Hfind) as Hstep.
    cbv zeta in Hstep. fold o in Hstep. destruct Hstep as [cresp [Hc Hrest]].
    fold pvc in Hc. rewrite Hcreate in Hc.
    assert (cresp = Some e) as -> by congruence.
    simpl in Hrest. rewrite Hae in Hrest. exact Hrest.
  - intros cl o1 o2.
    pose proof (fake_storage_sync c key d planName plan cl
                  Hget Hdel Hvalid Hplan Hmark Hfind) as H1.
    pose proof (fake_storage_sync c key d planName plan (final o1)
                  Hget Hdel Hvalid Hplan Hmark Hfind) as H2.
    cbv zeta in H1, H2. fold o1 in H1. fold o2 in H2. fold k in H1, H2.
    fold pvc in H1, H2.
    destruct H1 as [Hr1 H1]. destruct H2 as [Hr2 H2].
    assert (Htaken : is_Some (Fake.pvcs (final o1) !! k)).
    { destruct (Fake.pvcs cl !! k) as [old|] eqn:Hk.
      - destruct H1 as [-> _]. rewrite Hk. eauto.
      - destruct H1 as [-> _]. rewrite lookup_insert_eq. eauto. }
    destruct Htaken as [taken Htaken]. rewrite Htaken in H2.
    destruct H2 as [Hsame Hcollide].
    split; [exact Hr1|]. split; [exact Hr2|]. split; [exact Hcollide|].
    split; [exact Hsame|]. split.
    + rewrite Hsame, Htaken. eauto.
    + intros Hfree. rewrite Hfree in H1. destruct H1 as [Hins _].
      rewrite Hsame, Hins. split; [reflexivity|].
      now apply map_size_insert_None.
Qed.

End Storage.

Section StorageRuns.
Local Existing Instance Sample.decls.

(** The deployment [web] asks for the plan [gold]; the cache holds
    another storage plan and a [gold] that is not of storage type. *)
Lemma syncHandler_plan_not_found_witness :
  let c := AppManagerController.mkController (H := Sample.decls)
             (Sample.storeOf Sample.webKey Sample.web)
             (Sample.planStore [Sample.mkPlan "silver" "1Gi" true;
                                Sample.mkPlan "gold" "10Gi" false])
             "koli.io" in
  let o := run Fake.handle (AppManagerController.syncHandler c Sample.webKey)
             Fake.empty in
  (GetByKey (AppManagerController.dpInf c) Sample.webKey = Found Sample.web /\
   Valid (GetNamespaceMetadata Sample.web) = true /\
   GetStoragePlan Sample.web = ("gold", true) /\
   HasSetupPVCAnnotation Sample.web = true) /\
  recorded (trace o)
    = [(ObjDeployment Sample.web, EventTypeWarning, "PlanNotFound",
        "Storage Plan " +:+ q "gold" +:+ " not found")] /\
  notNil (result o) = true /\
  patches (trace o) = [] /\
  pvcCreates (trace o) = [].
Proof.
  intros c o.
  split; [repeat split; vm_compute; reflexivity|].
  apply (syncHandler_plan_not_found (H := Sample.decls) Fake.Cluster
           Fake.handle Fake.empty c Sample.webKey Sample.web "gold");
    try (vm_compute; reflexivity).
  intros p [<- | [<- | []]]; [discriminate | reflexivity].
Defined.

(** The sync of [web] with the plan [gold] cached, against a control
    plane that creates the claim and refuses the patch. *)
Lemma syncHandler_clears_setup_storage_witness :
  let c := AppManagerController.mkController (H := Sample.decls)
             (Sample.storeOf Sample.webKey Sample.web)
             (Sample.planStore [Sample.gold]) "koli.io" in
  let h := Scripted.stateless
             (Scripted.failPatch (mkError false "conflict")) in
  let o := run h (AppManagerController.syncHandler c Sample.webKey) tt in
  (GetByKey (AppManagerController.dpInf c) Sample.webKey = Found Sample.web /\
   Valid (GetNamespaceMetadata Sample.web) = true /\
   GetStoragePlan Sample.web = ("gold", true) /\
   HasSetupPVCAnnotation Sample.web = true /\
   AppManagerController.findPlan
     (ListAll (AppManagerController.planInf c)) "gold" = Some Sample.gold /\
   pvcCreates (trace o)
     = [("prod-acme-koli",
         AppManagerController.newPVC Sample.web Sample.gold, None)]) /\
  exists presp,
    patches (trace o)
      = [("prod-acme-koli", "web", MergePatchType,
          annotationPatch "kolihub.io/setup-storage" "false", presp)] /\
    (notNil presp = true -> notNil (result o) = true) /\
    (presp = None -> result o = None).
Proof.
  intros c h o.
  split; [repeat split; vm_compute; reflexivity|].
  apply (syncHandler_clears_setup_storage (H := Sample.decls) unit h tt c
           Sample.webKey Sample.web "gold" Sample.gold);
    vm_compute; reflexivity.
Defined.

(** Two syncs of [web] in a row on an empty fake control plane. *)
Lemma syncHandler_claim_idempotent_witness :
  let c := AppManagerController.mkController (H := Sample.decls)
             (Sample.storeOf Sample.webKey Sample.web)
             (Sample.planStore [Sample.gold]) "koli.io" in
  let pvc := AppManagerController.newPVC Sample.web Sample.gold in
  let o1 := run Fake.handle (AppManagerController.syncHandler c Sample.webKey)
              Fake.empty in
  let o2 := run Fake.handle (AppManagerController.syncHandler c Sample.webKey)
              (final o1) in
  (GetByKey (AppManagerController.dpInf c) Sample.webKey = Found Sample.web /\
   Valid (GetNamespaceMetadata Sample.web) = true /\
   GetStoragePlan Sample.web = ("gold", true) /\
   HasSetupPVCAnnotation Sample.web = true /\
   AppManagerController.findPlan
     (ListAll (AppManagerController.planInf c)) "gold" = Some Sample.gold) /\
  pvcName pvc = "d-web" /\
  result o1 = None /\ result o2 = None /\
  Fake.pvcs (final o2) = {[ ("prod-acme-koli", "d-web") := pvc ]} /\
  size (Fake.pvcs (final o2)) = 1%nat.
Proof.
  intros c pvc o1 o2.
  split; [repeat split; vm_compute; reflexivity|].
  destruct (syncHandler_claim_idempotent (H := Sample.decls) c Sample.webKey
              Sample.web "gold" Sample.gold
              ltac:(vm_compute; reflexivity) eq_refl
              ltac:(vm_compute; reflexivity) ltac:(vm_compute; reflexivity)
              ltac:(vm_compute; reflexivity) ltac:(vm_compute; reflexivity))
    as [[Hname _] [_ Hfake]].
  destruct (Hfake Fake.empty) as (Hr1 & Hr2 & _ & _ & _ & Hfree).
  destruct (Hfree (lookup_empty _)) as [Hins Hsize].
  split; [exact Hname|]. split; [exact Hr1|]. split; [exact Hr2|].
  split; [exact Hins | exact Hsize].
Defined.

End StorageRuns.

(** ** The release controller *)

Section Release.
Context `{Decls}.
Import ReleaseController.

(** Replace the facts about the cached deployment by their values up to
    the validation of the required keys. *)
Ltac release_step Hget Hvalid Hbuild :=
  unfold syncHandler; rewrite Hget, Hvalid, Hbuild;
  simpl negb; cbv iota.

(** What the sync does once the required keys are there: one create of
    the release built from the deployment; on an error other than
    "already exists" an error result and no patch; otherwise one
    strategic merge patch that sets the build annotation to [false], no
    error result whatever the patch answers, and a warning in the log
    when the patch fails. *)
Lemma syncHandler_release_step :
  forall (S : Type) (h : Handler S) (s : S) (r : Controller)
         (key : string) (dp : Deployment),
    GetByKey (dpInf r) key = Found dp ->
    IsValid (NewNamespaceMetadata (dpNamespace dp)) = true ->
    index (dpAnnotations dp) "kolihub.io/build" = "true" ->
    validateRequiredKeys dp = None ->
    let o := run h (syncHandler r key) s in
    exists cresp,
      releaseCreates (trace o) = [(dpNamespace dp, newRelease dp, cresp)] /\
      if notNil cresp && negb (isAlreadyExists cresp) then
        patches (trace o) = [] /\ notNil (result o) = true
      else
        exists presp,
          patches (trace o)
            = [(dpNamespace dp, dpName dp, StrategicMergePatchType,
                annotationPatch AnnotationBuild "false", presp)] /\
          result o = None /\
          (notNil presp = true ->
           In (Warning, 0%nat,
               Sprintf "%s - failed deactivating build from deployment [%s]"
                 [key; errText presp])
              (logged (trace o))).
Proof.
  intros S h s r key dp Hget Hvalid Hbuild Hkeys o. subst o.
  release_step Hget Hvalid Hbuild. rewrite Hkeys.
  unfold activateBuildPayload. rewrite Sprintf_annotation_patch_2.
  destruct (String.eqb (index (dpAnnotations dp) AnnotationAutoDeploy) "true");
    answers h;
    (eexists; split; [reflexivity|]; simpl;
     try match goal with H : IsAlreadyExists _ = _ |- _ => rewrite H end;
     simpl;
     first [ split; reflexivity
           | eexists; split; [reflexivity|]; split; [reflexivity|];
             first [ discriminate | intros _; cbn; auto ] ]).
Qed.

(** C1, as the code has it.  For a deployment whose release sync
    reaches the construction of the release: when the create succeeds
    or collides as already existing, the sync applies one strategic
    merge patch that sets the build annotation to [false] on the source
    deployment, and returns no error whether or not that patch fails, a
    failure being logged; when the create fails with another error the
    sync returns an error and applies no patch. *)
Theorem syncHandler_deactivates_build :
  forall (S : Type) (h : Handler S) (s : S) (r : Controller)
         (key : string) (dp : Deployment),
    GetByKey (dpInf r) key = Found dp ->
    IsValid (NewNamespaceMetadata (dpNamespace dp)) = true ->
    index (dpAnnotations dp) "kolihub.io/build" = "true" ->
    validateRequiredKeys dp = None ->
    let o := run h (syncHandler r key) s in
    exists cresp,
      releaseCreates (trace o) = [(dpNamespace dp, newRelease dp, cresp)] /\
      ((cresp = None \/ isAlreadyExists cresp = true) ->
       exists presp,
         patches (trace o)
           = [(dpNamespace dp, dpName dp, StrategicMergePatchType,
               annotationPatch AnnotationBuild "false", presp)] /\
         result o = None /\
         (notNil presp = true ->
          In (Warning, 0%nat,
              Sprintf "%s - failed deactivating build from deployment [%s]"
                [key; errText presp])
             (logged (trace o)))) /\
      (notNil cresp = true -> isAlreadyExists cresp = false ->
       patches (trace o) = [] /\ notNil (result o) = true).
Proof.
  intros S h s r key dp Hget Hvalid Hbuild Hkeys o.
  pose proof (syncHandler_release_step S h s r key dp
                Hget Hvalid Hbuild Hkeys) as Hstep.
  cbv zeta in Hstep. fold o in Hstep. destruct Hstep as [cresp [Hc Hrest]].
  exists cresp. split; [exact Hc|]. split.
  - intros [-> | Hae].
    + exact Hrest.
    + rewrite Hae, andb_false_r in Hrest. exact Hrest.
  - intros Hnn Hae. rewrite Hnn, Hae in Hrest. exact Hrest.
Qed.

(** The correlation label survives the revision label. *)
Lemma newRelease_deploy_label (dp : Deployment) :
  AnnotationGitRevision <> "kolihub.io/deploy" ->
  relLabels (newRelease dp) !! "kolihub.io/deploy" = Some (dpName dp).
Proof.
  intros Hne. unfold newRelease. simpl.
  destruct (NewSha _).
  - rewrite lookup_insert_ne by exact Hne. apply lookup_singleton_eq.
  - apply lookup_singleton_eq.
Qed.

(** One sync on the fake control plane when the release name is free:
    the release is stored under the deployment's name. *)
Lemma fake_release_sync :
  forall (r : Controller) (key : string) (dp : Deployment) (cl : Fake.Cluster),
    GetByKey (dpInf r) key = Found dp ->
    IsValid (NewNamespaceMetadata (dpNamespace dp)) = true ->
    index (dpAnnotations dp) "kolihub.io/build" = "true" ->
    validateRequiredKeys dp = None ->
    Fake.releases cl !! (dpNamespace dp, dpName dp) = None ->
    let o := run Fake.handle (syncHandler r key) cl in
    result o = None /\
    Fake.releases (final o)
      = <[(dpNamespace dp, dpName dp) := newRelease dp]> (Fake.releases cl).
Proof.
  intros r key dp cl Hget Hvalid Hbuild Hkeys Hfree o. subst o.
  release_step Hget Hvalid Hbuild. rewrite Hkeys.
  destruct (String.eqb (index (dpAnnotations dp) AnnotationAutoDeploy) "true");
    simpl; unfold Fake.create; simpl; rewrite Hfree; simpl; split; reflexivity.
Qed.

(** C2. For a cached deployment in a platform namespace whose build
    annotation is the text [true] and whose required keys are present,
    the sync issues exactly one create, for a release named after the
    deployment in the deployment's namespace, with the build flag set,
    the auto-deploy flag telling whether the auto-deploy annotation is
    [true], the label [kolihub.io/deploy] equal to the deployment name
    and the source-control fields equal to the annotations; on a
    control plane where that name is free exactly this release is added.
    A sync of a deployment whose build annotation is not [true] issues
    no create. *)
Theorem syncHandler_creates_release :
  forall (S : Type) (h : Handler S) (s : S) (r : Controller)
         (key : string) (dp : Deployment),
    GetByKey (dpInf r) key = Found dp ->
    IsValid (NewNamespaceMetadata (dpNamespace dp)) = true ->
    index (dpAnnotations dp) "kolihub.io/build" = "true" ->
    validateRequiredKeys dp = None ->
    AnnotationGitRevision <> "kolihub.io/deploy" ->
    let o := run h (syncHandler r key) s in
    let a := index (dpAnnotations dp) in
    (exists rel cresp,
       releaseCreates (trace o) = [(dpNamespace dp, rel, cresp)] /\
       relName rel = dpName dp /\
       relNamespace rel = dpNamespace dp /\
       relBuild rel = true /\
       relAutoDeploy rel = String.eqb (a AnnotationAutoDeploy) "true" /\
       relLabels rel !! "kolihub.io/deploy" = Some (dpName dp) /\
       relGitRemote rel = a AnnotationGitRemote /\
       relGitBranch rel = a AnnotationGitBranch /\
       relGitRepository rel = a AnnotationGitRepository /\
       relHeadCommit rel
         = mkHeadCommit (a AnnotationGitCommitID) (a AnnotationGitAuthorName)
             (a AnnotationGitAuthorAvatar) (a AnnotationGitCompare)
             (a AnnotationGitCommitMessage) (a AnnotationGitCommitURL) /\
       (forall cl : Fake.Cluster,
          Fake.releases cl !! (dpNamespace dp, dpName dp) = None ->
          let o' := run Fake.handle (syncHandler r key) cl in
          Fake.releases (final o')
            = <[(dpNamespace dp, dpName dp) := rel]> (Fake.releases cl) /\
          size (Fake.releases (final o'))
            = Datatypes.S (size (Fake.releases cl)))) /\
    (forall (S' : Type) (h' : Handler S') (s' : S') (r' : Controller)
            (dp' : Deployment),
       GetByKey (dpInf r') key = Found dp' ->
       index (dpAnnotations dp') "kolihub.io/build" <> "true" ->
       releaseCreates (trace (run h' (syncHandler r' key) s')) = []).
Proof.
  intros S h s r key dp Hget Hvalid Hbuild Hkeys Hrev o a.
  split.
  - pose proof (syncHandler_release_step S h s r key dp
                  Hget Hvalid Hbuild Hkeys) as Hstep.
    cbv zeta in Hstep. fold o in Hstep. destruct Hstep as [cresp [Hc _]].
    exists (newRelease dp), cresp.
    split; [exact Hc|].
    repeat (split; [reflexivity|]).
    split; [apply newRelease_deploy_label, Hrev|].
    repeat (split; [reflexivity|]).
    intros cl Hfree o'.
    destruct (fake_release_sync r key dp cl Hget Hvalid Hbuild Hkeys Hfree)
      as [_ Hins].
    fold o' in Hins. rewrite Hins. split; [reflexivity|].
    now apply map_size_insert_None.
  - intros S' h' s' r' dp' Hget' Hoff.
    unfold syncHandler. rewrite Hget'.
    apply String.eqb_neq in Hoff. rewrite Hoff.
    destruct (IsValid (NewNamespaceMetadata (dpNamespace dp')));
      answers h'; reflexivity.
Qed.

(** C7. For a cached deployment in a platform namespace whose build
    annotation is [true] and that lacks the source-control remote
    annotation, the sync issues no release create, records one event, a
    [MissingAnnotationKey] warning against the deployment naming the
    key, and returns an error. *)
Theorem syncHandler_missing_remote :
  forall (S : Type) (h : Handler S) (s : S) (r : Controller)
         (key : string) (dp : Deployment),
    GetByKey (dpInf r) key = Found dp ->
    IsValid (NewNamespaceMetadata (dpNamespace dp)) = true ->
    index (dpAnnotations dp) "kolihub.io/build" = "true" ->
    dpAnnotations dp !! AnnotationGitRemote = None ->
    let o := run h (syncHandler r key) s in
    releaseCreates (trace o) = [] /\
    recorded (trace o)
      = [(ObjDeployment dp, EventTypeWarning, "MissingAnnotationKey",
          "Missing required key '" +:+ AnnotationGitRemote +:+ "'")] /\
    notNil (result o) = true /\
    patches (trace o) = [].
Proof.
  intros S h s r key dp Hget Hvalid Hbuild Hmissing o. subst o.
  release_step Hget Hvalid Hbuild.
  unfold validateRequiredKeys, requiredKeys. simpl validateKeys.
  rewrite Hmissing. unfold Errorf. rewrite Sprintf_missing_key.
  answers h. repeat split; reflexivity.
Qed.

End Release.

Section ReleaseRuns.
Local Existing Instance Sample.decls.

(** The release sync of [web] against a control plane that creates the
    release and refuses the patch: no error comes back. *)
Lemma syncHandler_deactivates_build_witness :
  let r := ReleaseController.mkController
             Sample.emptyStore (Sample.storeOf Sample.webKey Sample.web) in
  let h := Scripted.stateless
             (Scripted.failPatch (mkError false "conflict")) in
  let o := run h (ReleaseController.syncHandler r Sample.webKey) tt in
  (GetByKey (ReleaseController.dpInf r) Sample.webKey = Found Sample.web /\
   IsValid (NewNamespaceMetadata "prod-acme-koli") = true /\
   index (dpAnnotations Sample.web) "kolihub.io/build" = "true" /\
   ReleaseController.validateRequiredKeys Sample.web = None) /\
  patches (trace o)
    = [("prod-acme-koli", "web", StrategicMergePatchType,
        annotationPatch "kolihub.io/build" "false",
        Some (mkError false "conflict"))] /\
  result o = None.
Proof.
  intros r h o.
  split; [repeat split; vm_compute; reflexivity|].
  destruct (syncHandler_deactivates_build (H := Sample.decls) unit h tt r
              Sample.webKey Sample.web
              ltac:(vm_compute; reflexivity) ltac:(vm_compute; reflexivity)
              ltac:(vm_compute; reflexivity) ltac:(vm_compute; reflexivity))
    as [cresp [Hc [Hok _]]].
  assert (Hcresp : cresp = None).
  { vm_compute in Hc. congruence. }
  destruct (Hok (or_introl Hcresp)) as [presp [Hp [Hres _]]].
  split; [|exact Hres].
  vm_compute. reflexivity.
Defined.

(** C1 as stated fails: the release sync of [web] reaches the
    construction of the release, the create fails with an error that is
    not "already exists", and the sync returns an error without
    applying any patch. *)
Lemma syncHandler_patch_regardless_counterexample :
  let r := ReleaseController.mkController
             Sample.emptyStore (Sample.storeOf Sample.webKey Sample.web) in
  let e := mkError false "the server is currently unable to handle the request" in
  let h := Scripted.stateless (Scripted.failReleaseCreate e) in
  let o := run h (ReleaseController.syncHandler r Sample.webKey) tt in
  (GetByKey (ReleaseController.dpInf r) Sample.webKey = Found Sample.web /\
   IsValid (NewNamespaceMetadata "prod-acme-koli") = true /\
   index (dpAnnotations Sample.web) "kolihub.io/build" = "true" /\
   ReleaseController.validateRequiredKeys Sample.web = None) /\
  releaseCreates (trace o)
    = [("prod-acme-koli", ReleaseController.newRelease Sample.web, Some e)] /\
  isAlreadyExists (Some e) = false /\
  patches (trace o) = [] /\
  notNil (result o) = true.
Proof.
  intros r e h o. repeat split; vm_compute; reflexivity.
Qed.

(** The release sync of [web] on an empty fake control plane. *)
Lemma syncHandler_creates_release_witness :
  let r := ReleaseController.mkController
             Sample.emptyStore (Sample.storeOf Sample.webKey Sample.web) in
  let o := run Fake.handle (ReleaseController.syncHandler r Sample.webKey)
             Fake.empty in
  (GetByKey (ReleaseController.dpInf r) Sample.webKey = Found Sample.web /\
   IsValid (NewNamespaceMetadata "prod-acme-koli") = true /\
   index (dpAnnotations Sample.web) "kolihub.io/build" = "true" /\
   ReleaseController.validateRequiredKeys Sample.web = None /\
   AnnotationGitRevision <> "kolihub.io/deploy") /\
  exists rel cresp,
    releaseCreates (trace o) = [("prod-acme-koli", rel, cresp)] /\
    relName rel = "web" /\
    relBuild rel = true /\
    relLabels rel !! "kolihub.io/deploy" = Some "web" /\
    relGitRemote rel = "https://git.example/acme/web.git" /\
    size (Fake.releases (final o)) = 1%nat.
Proof.
  intros r o.
  split; [repeat split; try discriminate; vm_compute; reflexivity|].
  destruct (syncHandler_creates_release (H := Sample.decls) Fake.Cluster
              Fake.handle Fake.empty r Sample.webKey Sample.web
              ltac:(vm_compute; reflexivity) ltac:(vm_compute; reflexivity)
              ltac:(vm_compute; reflexivity) ltac:(vm_compute; reflexivity)
              ltac:(discriminate))
    as [(rel & cresp & Hc & Hname & _ & Hbuild & _ & Hlabel & Hremote & _ & _
         & _ & Hfake) _].
  exists rel, cresp.
  split; [exact Hc|]. split; [exact Hname|]. split; [exact Hbuild|].
  split; [exact Hlabel|]. split; [rewrite Hremote; vm_compute; reflexivity|].
  destruct (Hfake Fake.empty (lookup_empty _)) as [_ Hsize]. exact Hsize.
Defined.

(** The release sync of a deployment that lacks the remote. *)
Lemma syncHandler_missing_remote_witness :
  let r := ReleaseController.mkController
             Sample.emptyStore
             (Sample.storeOf Sample.webKey Sample.webNoRemote) in
  let o := run Fake.handle (ReleaseController.syncHandler r Sample.webKey)
             Fake.empty in
  (GetByKey (ReleaseController.dpInf r) Sample.webKey
     = Found Sample.webNoRemote /\
   IsValid (NewNamespaceMetadata "prod-acme-koli") = true /\
   index (dpAnnotations Sample.webNoRemote) "kolihub.io/build" = "true" /\
   dpAnnotations Sample.webNoRemote !! AnnotationGitRemote = None) /\
  releaseCreates (trace o) = [] /\
  recorded (trace o)
    = [(ObjDeployment Sample.webNoRemote, EventTypeWarning,
        "MissingAnnotationKey",
        "Missing required key 'kolihub.io/gitremote'")] /\
  notNil (result o) = true /\
  patches (trace o) = [].
Proof.
  intros r o.
  split; [repeat split; vm_compute; reflexivity|].
  apply (syncHandler_missing_remote (H := Sample.decls) Fake.Cluster
           Fake.handle Fake.empty r Sample.webKey Sample.webNoRemote);
    vm_compute; reflexivity.
Defined.

End ReleaseRuns.

(** ** The task queue worker *)

Section Worker.
Import TaskQueue.

(** The calls of the worker.  When the queue hands out [key], the
    worker runs the registered sync function on it once, right after
    the dequeue and the log line, then calls [Forget] when the sync
    returned no error and [AddRateLimited] when it returned one, and
    last, in both cases, [Done]; all for that key. *)
Lemma processNextWorkItem_calls :
  forall (S : Type) (h : Handler S) (s s1 : S) (t : TaskQueue) (key : string),
    h _ QueueGet s = ((Some key, false), s1) ->
    let o := run h (processNextWorkItem t) s in
    let s2 := snd (h _ (Glog Info 3 (Sprintf "Syncing %v" [key])) s1) in
    let osync := run h (sync t key) s2 in
    exists post,
      trace o
        = [Ev QueueGet (Some key, false);
           Ev (Glog Info 3 (Sprintf "Syncing %v" [key])) tt]
          ++ trace osync ++ post /\
      queueCalls post
        = [(if notNil (result osync)
            then QAddRateLimited key else QForget key);
           QDone key].
Proof.
  intros S h s s1 t key Hget o s2 osync. subst o.
  unfold processNextWorkItem. simpl. rewrite Hget. simpl.
  subst osync s2.
  destruct (h unit (Glog Info 3 (Sprintf "Syncing %v" [key])) s1) as [[] s2].
  simpl. rewrite !run_bind.
  destruct (run h (sync t key) s2) as [[err s3] tsync]. simpl.
  destruct err as [e|]; answers h;
    repeat match goal with u : unit |- _ => destruct u end;
    eexists; (split; [reflexivity|]); reflexivity.
Qed.

(** A program that makes no queue call leaves the queue as it is. *)
Lemma offQueue_run {A : Type} (p : Prog A) :
  callsOnly (@Workqueue.offQueue) p ->
  forall q, final (run Workqueue.handle p q) = q.
Proof.
  induction p as [a | R c k IH]; simpl; intros Hq q; [reflexivity|].
  destruct Hq as [Hc Hk].
  destruct c; try discriminate Hc; simpl;
    match goal with
    | |- context [run Workqueue.handle (k ?r) q] =>
        specialize (IH r (Hk r) q);
        destruct (run Workqueue.handle (k r) q) as [[a s2] tr]
    end; exact IH.
Qed.

(** Walk through a program and check each of its calls. *)
Ltac each_call :=
  repeat (simpl;
          match goal with
          | |- callsOnly _ (bind _ _) => apply callsOnly_bind; [|intros]
          | |- callsOnly _ (match ?x with _ => _ end) => destruct x
          | |- callsOnly _ (call _) => unfold call
          | |- _ /\ _ => split
          | |- forall _, _ => intros
          | |- True => exact I
          | |- _ = true => reflexivity
          end).

(** Neither sync function calls the queue. *)
Lemma appManager_sync_offQueue `{Decls}
    (c : AppManagerController.Controller) (key : string) :
  callsOnly (@Workqueue.offQueue) (AppManagerController.syncHandler c key).
Proof.
  unfold AppManagerController.syncHandler, AppManagerController.cleanBuilds,
    AppManagerController.addDefaultRoute.
  each_call.
Qed.

Lemma release_sync_offQueue `{Decls}
    (r : ReleaseController.Controller) (key : string) :
  callsOnly (@Workqueue.offQueue) (ReleaseController.syncHandler r key).
Proof.
  unfold ReleaseController.syncHandler. each_call.
Qed.

(** C9. When the queue hands out [key], the worker runs the registered
    sync function on it once, then calls [Forget] when the sync
    returned no error and [AddRateLimited] when it returned one, and
    last, in both cases, [Done], for that key.  On the client-go queue
    the key is no longer in the processing set afterwards; after a
    successful sync it has no failure count left, so that its next
    failure gets the base delay; after a failed sync its failure count
    is one higher and it waits for the delay of its earlier count. *)
Theorem processNextWorkItem_reports :
  forall (t : TaskQueue) (key : string),
    (forall (S : Type) (h : Handler S) (s s1 : S),
       h _ QueueGet s = ((Some key, false), s1) ->
       let o := run h (processNextWorkItem t) s in
       let s2 := snd (h _ (Glog Info 3 (Sprintf "Syncing %v" [key])) s1) in
       let osync := run h (sync t key) s2 in
       exists post,
         trace o
           = [Ev QueueGet (Some key, false);
              Ev (Glog Info 3 (Sprintf "Syncing %v" [key])) tt]
             ++ trace osync ++ post /\
         queueCalls post
           = [(if notNil (result osync)
               then QAddRateLimited key else QForget key);
              QDone key]) /\
    (forall (q : Workqueue.Queue) (rest : list string),
       Workqueue.queue q = key :: rest ->
       callsOnly (@Workqueue.offQueue) (sync t key) ->
       let o := run Workqueue.handle (processNextWorkItem t) q in
       let q1 := snd (Workqueue.get q) in
       let err := result (run Workqueue.handle (sync t key) q1) in
       (key ∈ Workqueue.processing q1) /\
       (key ∉ Workqueue.processing (final o)) /\
       (err = None ->
        Workqueue.failures (final o) !! key = None /\
        Workqueue.nextDelay (final o) key = Workqueue.baseDelay /\
        Workqueue.waiting (final o) = Workqueue.waiting q) /\
       (err <> None ->
        Workqueue.numRequeues (final o) key
          = Datatypes.S (Workqueue.numRequeues q key) /\
        Workqueue.waiting (final o)
          = Workqueue.waiting q
            ++ [(key, Workqueue.backoff (Workqueue.numRequeues q key))])).
Proof.
  intros t key. split.
  - intros S h s s1 Hget. exact (processNextWorkItem_calls S h s s1 t key Hget).
  - intros q rest Hq Hoff o q1 err. subst o.
    pose proof (offQueue_run (sync t key) Hoff q1) as Hsame.
    unfold processNextWorkItem. simpl.
    subst err q1. unfold Workqueue.get in *. rewrite Hq in *. simpl in *.
    rewrite !run_bind.
    destruct (run Workqueue.handle (sync t key) _) as [[err q2] tsync].
    unfold final, result in *. simpl in *. subst q2.
    destruct err as [e|]; simpl.
    + split; [apply elem_of_union_l, elem_of_singleton; reflexivity|].
      split; [rewrite elem_of_difference, elem_of_singleton; tauto|].
      split; [discriminate|].
      intros _. unfold Workqueue.numRequeues. simpl.
      rewrite lookup_insert_eq. split; reflexivity.
    + split; [apply elem_of_union_l, elem_of_singleton; reflexivity|].
      split; [rewrite elem_of_difference, elem_of_singleton; tauto|].
      split; [|congruence].
      intros _. unfold Workqueue.nextDelay, Workqueue.numRequeues. simpl.
      rewrite lookup_delete_eq. repeat split; reflexivity.
Qed.

End Worker.

Section WorkerRuns.
Local Existing Instance Sample.decls.

(** The worker of the release controller takes [prod-acme-koli/web]
    from the queue; the cached deployment lacks the remote, so the sync
    fails and the key is put back with the base delay. *)
Lemma processNextWorkItem_reports_witness :
  let r := ReleaseController.mkController
             Sample.emptyStore
             (Sample.storeOf Sample.webKey Sample.webNoRemote) in
  let t := TaskQueue.mkTaskQueue (ReleaseController.syncHandler r) in
  let q := Workqueue.mkQueue [Sample.webKey] {[Sample.webKey]} ∅ ∅ [] false in
  let o := run Workqueue.handle (TaskQueue.processNextWorkItem t) q in
  (Workqueue.handle QueueGet q
     = ((Some Sample.webKey, false), snd (Workqueue.get q)) /\
   Workqueue.queue q = [Sample.webKey] /\
   callsOnly (@Workqueue.offQueue) (TaskQueue.sync t Sample.webKey)) /\
  (exists pre post,
     trace o = pre ++ post /\
     queueCalls post = [QAddRateLimited Sample.webKey; QDone Sample.webKey]) /\
  (Sample.webKey ∉ Workqueue.processing (final o)) /\
  Workqueue.numRequeues (final o) Sample.webKey = 1%nat /\
  Workqueue.waiting (final o) = [(Sample.webKey, Workqueue.baseDelay)].
Proof.
  intros r t q o.
  assert (Hoff : callsOnly (@Workqueue.offQueue)
                   (TaskQueue.sync t Sample.webKey))
    by apply release_sync_offQueue.
  split; [repeat split; try reflexivity; exact Hoff|].
  destruct (processNextWorkItem_reports t Sample.webKey) as [Hcalls Hqueue].
  destruct (Hcalls _ Workqueue.handle q (snd (Workqueue.get q)) eq_refl)
    as [post [Htrace Hpost]].
  destruct (Hqueue q [] eq_refl Hoff) as (_ & Hdone & _ & Hfail).
  destruct (Hfail ltac:(vm_compute; discriminate)) as [Hcount Hwait].
  split; [|split; [exact Hdone | split; [exact Hcount | exact Hwait]]].
  eexists _, post. split; [rewrite app_assoc in Htrace; exact Htrace|].
  exact Hpost.
Defined.

End WorkerRuns.

(** ** Readiness of custom resource definitions *)

Section Readiness.
Import CRD.







(** A definition that is pending, then established: success on the
    second read. *)
Example waitCRDReady_established :
  let stream := [inl (Sample.plansCRD [Sample.namesAccepted]);
                 inl (Sample.plansCRD [Sample.namesAccepted;
                                       Sample.established])] in
  let o := run Scripted.reads (waitCRDReady "plans.platform.koli.io") stream in
  result o = None /\ length (crdGets (trace o)) = 2%nat.
Proof. split; vm_compute; reflexivity. Qed.

(** A definition whose names are refused before it is established:
    the name conflict comes back on the second read, after the second
    tick. *)
Example waitCRDReady_name_conflict :
  let stream := [inl (Sample.plansCRD []);
                 inl (Sample.plansCRD [Sample.namesRejected]);
                 inl (Sample.plansCRD [Sample.namesAccepted;
                                       Sample.established])] in
  let o := run Scripted.reads (waitCRDReady "plans.platform.koli.io") stream in
  result o = Some (nameConflict "KindConflict") /\
  map snd (received (trace o)) = [true; true].
Proof. split; vm_compute; reflexivity. Qed.

(** A definition that never shows a condition, on a channel that
    carries all its ticks: 30 reads after the ticks, one more when the
    channel is closed, and the timeout. *)
Example waitCRDReady_timeout :
  let o := run Scripted.reads (waitCRDReady "plans.platform.koli.io") [] in
  result o = Some ErrWaitTimeout /\
  length (crdGets (trace o)) = 31%nat /\
  map snd (received (trace o)) = repeat true 30.
Proof. repeat split; vm_compute; reflexivity. Qed.

(** Within one read the first settling condition of the list decides,
    whatever follows it. *)
Example waitCRDReady_list_order :
  let name := "plans.platform.koli.io" in
  let refused := [inl (Sample.plansCRD [Sample.namesRejected;
                                        Sample.established])] in
  let ready := [inl (Sample.plansCRD [Sample.established;
                                      Sample.namesRejected])] in
  result (run Scripted.reads (waitCRDReady name) refused)
    = Some (nameConflict "KindConflict") /\
  result (run Scripted.reads (waitCRDReady name) ready) = None.
Proof. split; vm_compute; reflexivity. Qed.

(** The read made when the channel is closed counts: a definition that
    is established on the 31st read only is ready. *)
Example waitCRDReady_last_read :
  let stream := repeat (inl (Sample.plansCRD [])) 30
                ++ [inl (Sample.plansCRD [Sample.established])] in
  let o := run Scripted.reads (waitCRDReady "plans.platform.koli.io") stream in
  result o = None /\ length (crdGets (trace o)) = 31%nat.
Proof. split; vm_compute; reflexivity. Qed.

(** A channel that is closed before its first tick: the definition is
    still read once, and the poll times out when that read is
    pending. *)
Example waitCRDReady_closed :
  let h := Scripted.stateless Scripted.closedChannel in
  let o := run h (waitCRDReady "plans.platform.koli.io") tt in
  result o = Some ErrWaitTimeout /\
  length (crdGets (trace o)) = 1%nat /\
  map snd (received (trace o)) = [false].
Proof. repeat split; vm_compute; reflexivity. Qed.

(** [CreateCRD] stops at the first definition whose poll fails: with the
    plans definition in name conflict the release definition is never
    created. *)
Example CreateCRD_name_conflict :
  let stream := [inl (Sample.plansCRD [Sample.namesRejected])] in
  let o := run Scripted.reads (CreateCRD (H := Sample.decls)) stream in
  result o = Some (nameConflict "KindConflict") /\
  map (fun c => crdName (fst c)) (crdCreates (trace o))
    = ["plans.platform.koli.io"].
Proof. split; vm_compute; reflexivity. Qed.

(** With both definitions established at once [CreateCRD] declares the
    two of them and succeeds. *)
Example CreateCRD_both :
  let stream := [inl (Sample.plansCRD [Sample.established]);
                 inl (Sample.plansCRD [Sample.established])] in
  let o := run Scripted.reads (CreateCRD (H := Sample.decls)) stream in
  result o = None /\
  map (fun c => crdName (fst c)) (crdCreates (trace o))
    = ["plans.platform.koli.io"; "releases.platform.koli.io"].
Proof. split; vm_compute; reflexivity. Qed.

End Readiness.

(* ===================================================================== *)
(** * Further properties of the code *)
(* ===================================================================== *)

(** ** The add-on getters *)

Section AddonGetters.
Import Spec.

Lemma Sprintf_image (image version : string) :
  Sprintf "%s:%s" [image; version] = image +:+ ":" +:+ version.
Proof.
  cbv -[String.append]. now rewrite append_empty_r.
Qed.

(** X1. [GetReplicas] never returns less than 1: it returns the stored
    size, or 1 when the stored size is below 1, and stores what it
    returns while leaving every other field alone; a second call
    returns the same size and changes nothing. *)
Theorem GetReplicas_at_least_one (a : Addon) :
  let n := fst (GetReplicas a) in
  let a' := snd (GetReplicas a) in
  (1 <= n)%Z /\
  n = Z.max 1 (Replicas (AddonSpec_ a)) /\
  a' = mkAddon (AddonName a) (AddonNamespace a)
         (mkAddonSpec (Type_ (AddonSpec_ a)) (BaseImage (AddonSpec_ a))
            (Version (AddonSpec_ a)) n (Port (AddonSpec_ a))
            (Env (AddonSpec_ a)) (Args (AddonSpec_ a))) /\
  GetReplicas a' = (n, a').
Proof.
  destruct a as [nm ns [ty img ver reps port env args]].
  unfold GetReplicas. simpl.
  destruct (reps <? 1)%Z eqn:Hlt; simpl.
  - apply Z.ltb_lt in Hlt. rewrite Z.max_l by lia. repeat split; lia.
  - rewrite Hlt. apply Z.ltb_ge in Hlt. rewrite Z.max_r by lia.
    repeat split; lia.
Qed.

(** X2. [GetImage] returns the base image and the version joined by a
    colon, with [latest] for an empty version; afterwards the stored
    version is what was printed and is not empty, every other field is
    as before, and a second call returns the same text and changes
    nothing. *)
Theorem GetImage_defaults_latest (a : Addon) :
  let image := fst (GetImage a) in
  let a' := snd (GetImage a) in
  let version :=
    if String.eqb (Version (AddonSpec_ a)) EmptyString
    then "latest" else Version (AddonSpec_ a) in
  image = BaseImage (AddonSpec_ a) +:+ ":" +:+ version /\
  version <> EmptyString /\
  a' = mkAddon (AddonName a) (AddonNamespace a)
         (mkAddonSpec (Type_ (AddonSpec_ a)) (BaseImage (AddonSpec_ a))
            version (Replicas (AddonSpec_ a)) (Port (AddonSpec_ a))
            (Env (AddonSpec_ a)) (Args (AddonSpec_ a))) /\
  GetImage a' = (image, a').
Proof.
  destruct a as [nm ns [ty img ver reps port env args]].
  unfold GetImage. simpl.
  destruct (String.eqb ver EmptyString) eqn:Hver; simpl.
  - rewrite Sprintf_image. repeat split. discriminate.
  - rewrite Hver. simpl. rewrite Sprintf_image. repeat split.
    now apply String.eqb_neq in Hver.
Qed.

End AddonGetters.

(** ** Helpers of the release controller *)

Section ReleaseHelpers.
Context `{Decls}.
Import ReleaseController.

Lemma validateKeys_none (keys : list string) (dp : Deployment) :
  validateKeys keys dp = None <->
  Forall (fun key => is_Some (dpAnnotations dp !! key)) keys.
Proof.
  induction keys as [|key rest IH]; simpl.
  - split; [constructor | reflexivity].
  - destruct (dpAnnotations dp !! key) as [v|] eqn:Hkey.
    + rewrite IH. split.
      * intros Hrest. constructor; [rewrite Hkey; eauto | exact Hrest].
      * intros Hall. now inversion Hall.
    + split; [discriminate|].
      intros Hall. inversion Hall as [|k l [v Hv] Hl]; subst.
      rewrite Hkey in Hv. discriminate.
Qed.

Lemma validateKeys_some (keys : list string) (dp : Deployment) (e : error) :
  validateKeys keys dp = Some e ->
  exists key,
    In key keys /\ dpAnnotations dp !! key = None /\
    e = mkError false ("Missing required key '" +:+ key +:+ "'").
Proof.
  induction keys as [|key rest IH]; simpl; [discriminate|].
  destruct (dpAnnotations dp !! key) as [v|] eqn:Hkey.
  - intros Hrest. destruct (IH Hrest) as (k & Hin & Hk & He).
    exists k. auto.
  - intros [= <-]. exists key. unfold Errorf.
    rewrite Sprintf_missing_key. auto.
Qed.

(** X3. [validateRequiredKeys] accepts a deployment exactly when the
    source-control remote annotation is present, whatever its value,
    the empty text included; when it refuses, the error names that
    key. *)
Theorem validateRequiredKeys_presence (dp : Deployment) :
  (validateRequiredKeys dp = None <->
   is_Some (dpAnnotations dp !! AnnotationGitRemote)) /\
  (forall e, validateRequiredKeys dp = Some e <->
             dpAnnotations dp !! AnnotationGitRemote = None /\
             e = mkError false
                   ("Missing required key '" +:+ AnnotationGitRemote +:+ "'")) /\
  validateRequiredKeys
    (withAnnotation AnnotationGitRemote EmptyString dp) = None.
Proof.
  unfold validateRequiredKeys, requiredKeys. split; [|split].
  - rewrite validateKeys_none. split.
    + intros Hall. now inversion Hall.
    + intros Hp. constructor; [exact Hp | constructor].
  - intros e. split.
    + intros He. destruct (validateKeys_some _ _ _ He) as (k & Hin & Hk & ->).
      destruct Hin as [<- | []]. auto.
    + intros [Hk ->]. simpl. rewrite Hk. unfold Errorf.
      now rewrite Sprintf_missing_key.
  - simpl. now rewrite lookup_insert_eq.
Qed.

Lemma fold_max_acc (revisions : list Z) :
  forall n : Z,
    let r := fold_left (fun n v => if (n <? v)%Z then v else n) revisions n in
    (n <= r)%Z /\ Forall (fun v => (v <= r)%Z) revisions /\
    (r = n \/ In r revisions).
Proof.
  induction revisions as [|v rest IH]; intros n; simpl.
  - split; [lia|]. split; [constructor | now left].
  - specialize (IH (if (n <? v)%Z then v else n)). cbv zeta in IH.
    destruct IH as (Hle & Hall & Hmem).
    destruct (n <? v)%Z eqn:Hlt.
    + apply Z.ltb_lt in Hlt. split; [lia|].
      split; [constructor; [lia | exact Hall]|].
      destruct Hmem as [-> | Hin]; right; auto.
    + apply Z.ltb_ge in Hlt. split; [lia|].
      split; [constructor; [lia | exact Hall]|].
      destruct Hmem as [-> | Hin]; auto.
Qed.

(** X4. [getLastBuildRevision] returns a number that is not negative
    and not below any listed revision, and that is one of the listed
    revisions unless it is 0; so it is 0 for an empty list and for a
    list of negative numbers. *)
Theorem getLastBuildRevision_max (revisions : list Z) :
  let n := getLastBuildRevision revisions in
  (0 <= n)%Z /\
  Forall (fun v => (v <= n)%Z) revisions /\
  (n = 0%Z \/ In n revisions) /\
  (Forall (fun v => (v <= 0)%Z) revisions <-> n = 0%Z).
Proof.
  intros n. subst n. unfold getLastBuildRevision.
  pose proof (fold_max_acc revisions 0%Z) as Hfold. cbv zeta in Hfold.
  destruct Hfold as (Hpos & Hall & Hmem).
  split; [exact Hpos|]. split; [exact Hall|]. split; [exact Hmem|].
  split.
  - intros Hneg. destruct Hmem as [Hz | Hin]; [exact Hz|].
    rewrite Forall_forall in Hneg. apply list_elem_of_In in Hin.
    specialize (Hneg _ Hin). lia.
  - intros Hz. rewrite Hz in Hall. exact Hall.
Qed.

End ReleaseHelpers.

(** ** The cache listeners *)

Section Listeners.
Context `{Decls}.
Variable keyFunc : Deployment -> string * option error.
Variable goString : Deployment -> string.

(** What [Add] puts on the queue for an object. *)
Definition added (d : Deployment) : list QueueCall :=
  if notNil (snd (keyFunc d)) then [] else [QAdd (fst (keyFunc d))].

Lemma Add_queueCalls (S : Type) (h : Handler S) (s : S) (d : Deployment) :
  queueCalls (trace (run h (TaskQueue.Add keyFunc goString d) s)) = added d.
Proof.
  unfold TaskQueue.Add, added. destruct (keyFunc d) as [key [e|]]; simpl.
  - destruct (h unit _ s) as [[] s1]. reflexivity.
  - destruct (h unit _ s) as [[] s1]. reflexivity.
Qed.

Lemma queueCalls_bind {S A B : Type} (h : Handler S) (p : Prog A)
    (f : A -> Prog B) (s : S) :
  queueCalls (trace (run h (bind p f) s))
  = queueCalls (trace (run h p s))
    ++ queueCalls (trace (run h (f (result (run h p s))) (final (run h p s)))).
Proof.
  rewrite run_bind. destruct (run h p s) as [[a s1] t1].
  unfold result, final, trace. simpl.
  destruct (run h (f a) s1) as [[b s2] t2]. simpl.
  unfold queueCalls. apply omap_app.
Qed.

(** X5. [enqueueForNamespace] puts on the queue the keys of the cached
    deployments of the given namespace, each once and in the order of
    the cache, and nothing for a deployment of another namespace or
    one whose key cannot be computed. *)
Theorem enqueueForNamespace_adds :
  forall (S : Type) (h : Handler S) (s : S)
         (c : AppManagerController.Controller) (namespace : string),
    let o := run h (AppManagerEvents.enqueueForNamespace keyFunc goString
                      c namespace) s in
    queueCalls (trace o)
    = flat_map added
        (List.filter (fun d => String.eqb (dpNamespace d) namespace)
           (ListAll (AppManagerController.dpInf c))).
Proof.
  intros S h s c namespace o. subst o.
  unfold AppManagerEvents.enqueueForNamespace.
  generalize (ListAll (AppManagerController.dpInf c)) as l.
  intros l. revert s.
  induction l as [|d rest IH]; intros s; [reflexivity|].
  simpl forEach. rewrite queueCalls_bind, IH. simpl List.filter.
  destruct (String.eqb (dpNamespace d) namespace).
  - rewrite Add_queueCalls. reflexivity.
  - reflexivity.
Qed.

(** X6. On an update the application controller enqueues the new
    object exactly when the resource version changed; the release
    controller enqueues it exactly when the resource version and the
    generation both changed.  So the release controller enqueues only
    what the application controller enqueues too, and a change of
    status alone reaches the application controller only. *)
Theorem updateDeployment_listeners :
  forall (S : Type) (h : Handler S) (s : S) (old new : Deployment),
    let app := queueCalls
                 (trace (run h (AppManagerEvents.updateDeployment
                                  keyFunc goString old new) s)) in
    let rel := queueCalls
                 (trace (run h (ReleaseEvents.updateDeployment
                                  keyFunc goString old new) s)) in
    app = (if String.eqb (dpResourceVersion old) (dpResourceVersion new)
           then [] else added new) /\
    rel = (if String.eqb (dpResourceVersion old) (dpResourceVersion new)
              || (dpGeneration old =? dpGeneration new)%Z
           then [] else added new) /\
    (rel = [] \/ rel = app).
Proof.
  intros S h s old new app rel. subst app rel.
  unfold AppManagerEvents.updateDeployment, ReleaseEvents.updateDeployment.
  destruct (String.eqb (dpResourceVersion old) (dpResourceVersion new)); simpl.
  - auto.
  - rewrite Add_queueCalls.
    destruct (dpGeneration old =? dpGeneration new)%Z; simpl.
    + auto.
    + destruct (h unit _ s) as [[] s1].
      pose proof (Add_queueCalls S h s1 new) as Hadd.
      destruct (run h (TaskQueue.Add keyFunc goString new) s1) as [[u s2] t].
      unfold trace in *. simpl in *. rewrite Hadd. auto.
Qed.

End Listeners.

Section DeleteThenSync.
Context `{Decls}.
Import AppManagerController.

(** X7. The key the delete listener enqueues for a deployment with a
    namespace leads the sync to that deployment's pods: once the key is
    absent from the cache, the sync of a platform namespace issues one
    delete-collection call, in the deployment's namespace and selecting
    on the deployment's name. *)
Theorem deleteDeployment_then_cleanup :
  forall (goString : Deployment -> string)
         (S : Type) (h : Handler S) (s : S)
         (S' : Type) (h' : Handler S') (s' : S')
         (c : Controller) (d : Deployment),
    dpNamespace d <> EmptyString ->
    hasByte "/"%char (dpNamespace d) = false ->
    hasByte "/"%char (dpName d) = false ->
    IsValid (NewNamespaceMetadata (dpNamespace d)) = true ->
    exists key,
      queueCalls
        (trace (run h (AppManagerEvents.deleteDeployment
                         TaskQueue.MetaNamespaceKeyFunc goString d) s))
        = [QAdd key] /\
      (GetByKey (dpInf c) key = NotFound ->
       exists resp,
         deleteCollections (trace (run h' (syncHandler c key) s'))
           = [(dpNamespace d, AnnotationApp +:+ "=" +:+ dpName d, resp)] /\
         result (run h' (syncHandler c key) s') = None).
Proof.
  intros goString S h s S' h' s' c d Hns Hslash Hname Hvalid.
  exists (dpNamespace d +:+ "/" +:+ dpName d). split.
  - unfold AppManagerEvents.deleteDeployment.
    rewrite Add_queueCalls. unfold added, TaskQueue.MetaNamespaceKeyFunc.
    destruct (dpNamespace d) as [|ch rest]; [congruence|]. reflexivity.
  - intros Hget. unfold syncHandler.
    rewrite Hget, (Split_key _ _ Hslash Hname).
    unfold cleanBuilds. rewrite Hvalid, Sprintf_selector.
    answers h'; eexists; split; reflexivity.
Qed.

(** X8. A key absent from the cache that does not split at a slash
    into exactly two parts, such as the key of an object without
    namespace, gets no cleanup: the sync writes one log line, makes no
    other call and returns no error. *)
Theorem syncHandler_absent_odd_key :
  forall (S : Type) (h : Handler S) (s : S) (c : Controller) (key : string),
    GetByKey (dpInf c) key = NotFound ->
    length (Split key "/"%char) <> 2%nat ->
    let o := run h (syncHandler c key) s in
    result o = None /\
    trace o
      = [Ev (Glog Info 3 (Sprintf "%s - the deployment doesn't exists" [key]))
           tt].
Proof.
  intros S h s c key Hget Hparts o. subst o.
  unfold syncHandler. rewrite Hget.
  destruct (Split key "/"%char) as [|p1 [|p2 [|p3 ps]]];
    try (simpl in Hparts; congruence);
    simpl; destruct (h unit _ s) as [[] s1]; split; reflexivity.
Qed.

End DeleteThenSync.

(** ** More of the application controller's sync *)

Section AppSync.
Context `{Decls}.
Import AppManagerController.

(** Route and log calls show no counter increment and no
    delete-collection either. *)
Lemma routeOrLog_quiet_more (t : list Event) :
  Forall (fun e => routeOrLog (evCmd e) = true) t ->
  incs t = [] /\ deleteCollections t = [].
Proof.
  induction 1 as [|[R c r] t Hc _ IH]; [split; reflexivity|].
  destruct IH as (Hincs & Hdel).
  unfold incs, deleteCollections in *.
  destruct c; try discriminate Hc; simpl; split; assumption.
Qed.

Lemma incs_after_quiet (t1 t2 : list Event) :
  Forall (fun e => routeOrLog (evCmd e) = true) t1 ->
  incs (t1 ++ t2) = incs t2.
Proof.
  intros Hq. destruct (routeOrLog_quiet_more t1 Hq) as (Hp & _).
  unfold incs in *. now rewrite omap_app, Hp.
Qed.

Lemma deleteCollections_after_quiet (t1 t2 : list Event) :
  Forall (fun e => routeOrLog (evCmd e) = true) t1 ->
  deleteCollections (t1 ++ t2) = deleteCollections t2.
Proof.
  intros Hq. destruct (routeOrLog_quiet_more t1 Hq) as (_ & Hp).
  unfold deleteCollections in *. now rewrite omap_app, Hp.
Qed.

Ltac drop_opening :=
  repeat first
    [ rewrite pvcCreates_after_quiet by assumption
    | rewrite patches_after_quiet by assumption
    | rewrite recorded_after_quiet by assumption
    | rewrite incs_after_quiet by assumption
    | rewrite deleteCollections_after_quiet by assumption ].

Ltac quiet_step :=
  first
    [ apply addDefaultRoute_calls
    | match goal with
      | |- callsOnly _ (if ?b then _ else _) => destruct b
      | |- callsOnly _ (match ?l with [] => _ | _ :: _ => _ end) =>
          destruct l as [|[[?|] [?|]] ?]
      end; simpl; auto ].

Ltac peel_opening h :=
  match goal with
  | |- context [run h (bind ?p ?f) ?s] =>
      let Hq := fresh "Hquiet" in
      destruct (run_bind_quiet h p f s ltac:(quiet_step))
        as (? & ? & ? & Hq & ->);
      cbv beta
  end.

(** X9. The sync stops early, with nothing but one log line, in three
    cases: the cache lookup fails, and the sync returns the error of
    the lookup; the cached deployment is marked for deletion, or it is
    not in a platform namespace, and the sync returns no error. *)
Theorem syncHandler_stops_early :
  forall (S : Type) (h : Handler S) (s : S) (c : Controller) (key : string),
    (exists err, GetByKey (dpInf c) key = LookupFailed err) \/
    (exists d, GetByKey (dpInf c) key = Found d /\
               (dpDeletionTimestamp d <> None \/
                Valid (GetNamespaceMetadata d) = false)) ->
    let o := run h (syncHandler c key) s in
    length (trace o) = 1%nat /\
    Forall (fun e => logOnly (evCmd e) = true) (trace o) /\
    result o = match GetByKey (dpInf c) key with
               | LookupFailed err => Some err
               | _ => None
               end.
Proof.
  intros S h s c key Hcase o. subst o. unfold syncHandler.
  destruct Hcase as [[err ->] | [d [-> Hwhy]]].
  - answers h. repeat split. repeat constructor.
  - destruct (dpDeletionTimestamp d) as [ts|] eqn:Hdel.
    + answers h. repeat split. repeat constructor.
    + destruct Hwhy as [Hdeleted | ->]; [congruence|].
      answers h. repeat split. repeat constructor.
Qed.

(** X10. [addDefaultRoute] does nothing and reports no error when the
    controller has no default domain or when the deployment does not
    carry the label [kolihub.io/type] with the value [app]. *)
Theorem addDefaultRoute_skipped :
  forall (S : Type) (h : Handler S) (s : S) (c : Controller) (d : Deployment),
    defaultDomain c = EmptyString \/
    dpLabels d !! "kolihub.io/type" <> Some "app" ->
    run h (addDefaultRoute c d) s = (None, s, []).
Proof.
  intros S h s c d Hskip. unfold addDefaultRoute.
  destruct Hskip as [-> | Hlabel]; [reflexivity|].
  destruct (String.length (defaultDomain c) =? 0)%nat; [reflexivity|].
  unfold index.
  destruct (dpLabels d !! "kolihub.io/type") as [v|]; [|reflexivity].
  destruct (String.eqb v "app") eqn:Hv; [|reflexivity].
  apply String.eqb_eq in Hv. congruence.
Qed.

(** X11. With a default domain and the [app] label, [addDefaultRoute]
    first creates a service named after the deployment, in its
    namespace and owned by it.  When that create fails with an error
    other than "already exists" the error is returned and no ingress is
    created.  Otherwise it creates one ingress of the same name and
    owner whose only host is [<name>-<namespace>.<domain>], routed to
    that service, and returns what this create answers, an "already
    exists" error included. *)
Theorem addDefaultRoute_service_first :
  forall (S : Type) (h : Handler S) (s : S) (c : Controller) (d : Deployment),
    defaultDomain c <> EmptyString ->
    dpLabels d !! "kolihub.io/type" = Some "app" ->
    let o := run h (addDefaultRoute c d) s in
    exists svc sresp,
      serviceCreates (trace o) = [(dpNamespace d, svc, sresp)] /\
      svcName svc = dpName d /\ svcNamespace svc = dpNamespace d /\
      map orUID (svcOwnerReferences svc) = [dpUID d] /\
      if notNil sresp && negb (isAlreadyExists sresp) then
        ingressCreates (trace o) = [] /\ result o = sresp
      else
        exists ing iresp,
          ingressCreates (trace o) = [(dpNamespace d, ing, iresp)] /\
          ingName ing = dpName d /\ ingNamespace ing = dpNamespace d /\
          ingOwnerReferences ing = svcOwnerReferences svc /\
          map irHost (ingRules ing)
            = [dpName d +:+ "-" +:+ dpNamespace d +:+ "."
               +:+ defaultDomain c] /\
          map ipServiceName (flat_map irPaths (ingRules ing)) = [svcName svc] /\
          result o = iresp.
Proof.
  intros S h s c d Hdomain Hlabel o. subst o. unfold addDefaultRoute, index.
  rewrite Hlabel.
  destruct (defaultDomain c) as [|ch rest] eqn:Hdom; [congruence|].
  simpl String.length. simpl orb. cbv iota.
  assert (Hhost : forall a b c', Sprintf "%s-%s.%s" [a; b; c']
                                 = a +:+ "-" +:+ b +:+ "." +:+ c').
  { intros a b c'. cbv -[String.append]. now rewrite append_empty_r. }
  answers h;
    (eexists _, _; do 4 (split; [reflexivity|]); simpl;
     try match goal with Hae : IsAlreadyExists _ = _ |- _ => rewrite Hae end;
     simpl;
     first [ split; reflexivity
           | eexists _, _; do 4 (split; [reflexivity|]);
             rewrite Hhost; repeat split; reflexivity ]).
Qed.

(** Bring the sync of a cached, live deployment of the platform to its
    storage step. *)
Ltac to_storage h Hget Hdel Hvalid :=
  unfold syncHandler; rewrite Hget, Hdel, Hvalid;
  simpl negb; cbv iota; do 3 peel_opening h.

(** X12. For a cached, live deployment of the platform that has no
    storage-plan reference or no setup-storage marker, the sync returns
    no error whatever the route creates answer and whether or not the
    first container declares requests and limits; it creates no claim,
    applies no patch, records no event and touches no counter. *)
Theorem syncHandler_without_storage_request :
  forall (S : Type) (h : Handler S) (s : S) (c : Controller)
         (key : string) (d : Deployment),
    GetByKey (dpInf c) key = Found d ->
    dpDeletionTimestamp d = None ->
    Valid (GetNamespaceMetadata d) = true ->
    snd (GetStoragePlan d) = false \/ HasSetupPVCAnnotation d = false ->
    let o := run h (syncHandler c key) s in
    result o = None /\
    pvcCreates (trace o) = [] /\ patches (trace o) = [] /\
    recorded (trace o) = [] /\ incs (trace o) = [].
Proof.
  intros S h s c key d Hget Hdel Hvalid Hnone o. subst o.
  to_storage h Hget Hdel Hvalid.
  assert (Hskip : negb (snd (GetStoragePlan d))
                  || negb (HasSetupPVCAnnotation d) = true).
  { destruct Hnone as [-> | ->]; [reflexivity | apply orb_true_r]. }
  destruct (GetStoragePlan d) as [pn ex]. simpl in Hskip. rewrite Hskip.
  answers h. unfold trace, result. simpl. drop_opening. repeat split.
Qed.

(** X13. At the storage step the sync issues one claim create and
    accounts for its answer: success increments the counter of created
    claims only; an "already exists" error touches no counter and
    records no event; any other error increments the counter of failed
    claims only, records one [ProvisionError] warning against the
    deployment that quotes the error, makes the sync return an error
    and leaves the deployment unpatched. *)
Theorem syncHandler_claim_accounting :
  forall (S : Type) (h : Handler S) (s : S) (c : Controller)
         (key : string) (d : Deployment) (planName : string) (plan : Plan),
    GetByKey (dpInf c) key = Found d ->
    dpDeletionTimestamp d = None ->
    Valid (GetNamespaceMetadata d) = true ->
    GetStoragePlan d = (planName, true) ->
    HasSetupPVCAnnotation d = true ->
    findPlan (ListAll (planInf c)) planName = Some plan ->
    let o := run h (syncHandler c key) s in
    exists cresp,
      pvcCreates (trace o) = [(dpNamespace d, newPVC d plan, cresp)] /\
      match cresp with
      | None => incs (trace o) = [pvcCreated] /\ recorded (trace o) = []
      | Some e =>
          if IsAlreadyExists e
          then incs (trace o) = [] /\ recorded (trace o) = []
          else incs (trace o) = [pvcFailed] /\
               recorded (trace o)
                 = [(ObjDeployment d, EventTypeWarning, "ProvisionError",
                     Sprintf "Failed creating PVC [%v]" [Error e])] /\
               notNil (result o) = true /\
               patches (trace o) = []
      end.
Proof.
  intros S h s c key d planName plan Hget Hdel Hvalid Hplan Hmark Hfind o.
  subst o. to_storage h Hget Hdel Hvalid.
  rewrite Hplan, Hmark, Hfind. simpl negb. simpl orb. cbv iota.
  answers h; unfold trace, result; simpl; drop_opening;
    (eexists; split; [reflexivity|]; simpl;
     try match goal with Hae : IsAlreadyExists _ = _ |- _ => rewrite Hae end;
     repeat split).
Qed.

(** Settle the five parts of the call discipline on a computed trace. *)
Ltac discipline :=
  unfold trace; simpl; drop_opening; simpl;
  split; [lia|]; split; [lia|]; split; [lia|]; split;
  [ first [ intros Hp; congruence
          | intros _; eexists _, _, _; split; [reflexivity|]; auto ]
  | first [ intros Hd; simpl in Hd; congruence
          | intros _; repeat split; reflexivity ] ].

(** X14. Whatever the cache holds and whatever the control plane
    answers, one sync issues at most one claim create, one patch and
    one delete-collection; it patches the deployment only after a claim
    create that succeeded or collided as already existing; and it
    deletes pods only for a key absent from the cache, in which case it
    creates and patches nothing. *)
Theorem syncHandler_call_discipline :
  forall (S : Type) (h : Handler S) (s : S) (c : Controller) (key : string),
    let o := run h (syncHandler c key) s in
    (length (pvcCreates (trace o)) <= 1)%nat /\
    (length (patches (trace o)) <= 1)%nat /\
    (length (deleteCollections (trace o)) <= 1)%nat /\
    (patches (trace o) <> [] ->
     exists ns pvc cresp,
       pvcCreates (trace o) = [(ns, pvc, cresp)] /\
       (cresp = None \/ isAlreadyExists cresp = true)) /\
    (deleteCollections (trace o) <> [] ->
     GetByKey (dpInf c) key = NotFound /\
     pvcCreates (trace o) = [] /\ patches (trace o) = []).
Proof.
  intros S h s c key o. subst o. unfold syncHandler.
  destruct (GetByKey (dpInf c) key) as [d | | err] eqn:Hget.
  - destruct (dpDeletionTimestamp d) as [ts|]; [answers h; discipline|].
    destruct (Valid (GetNamespaceMetadata d)); [|answers h; discipline].
    simpl negb. cbv iota. do 3 peel_opening h.
    destruct (GetStoragePlan d) as [pn [|]];
      destruct (HasSetupPVCAnnotation d);
      simpl negb; simpl orb; cbv iota;
      try (answers h; discipline).
    destruct (findPlan (ListAll (planInf c)) pn) as [plan|];
      answers h; discipline.
  - unfold cleanBuilds.
    destruct (Split key "/"%char) as [|p1 [|p2 [|p3 ps]]];
      try destruct (IsValid (NewNamespaceMetadata p1));
      answers h; discipline.
  - answers h. discipline.
Qed.

End AppSync.

(** ** More of the release controller's sync *)

Section ReleaseSync.
Context `{Decls}.
Import ReleaseController.

(** X15. The release sync does nothing on the control plane in four
    cases.  A failed cache lookup returns the error of the lookup
    without any call, not even a log line.  A key absent from the
    cache, a deployment outside the platform namespaces and a
    deployment whose build annotation is not the text [true] each
    return no error after one log line. *)
Theorem syncHandler_release_noop :
  forall (S : Type) (h : Handler S) (s : S) (r : Controller) (key : string),
    let o := run h (syncHandler r key) s in
    match GetByKey (dpInf r) key with
    | LookupFailed err => result o = Some err /\ trace o = []
    | NotFound =>
        result o = None /\ length (trace o) = 1%nat /\
        Forall (fun e => logOnly (evCmd e) = true) (trace o)
    | Found dp =>
        IsValid (NewNamespaceMetadata (dpNamespace dp)) = false \/
        index (dpAnnotations dp) "kolihub.io/build" <> "true" ->
        result o = None /\ length (trace o) = 1%nat /\
        Forall (fun e => logOnly (evCmd e) = true) (trace o)
    end.
Proof.
  intros S h s r key o. subst o. unfold syncHandler.
  destruct (GetByKey (dpInf r) key) as [dp | | err].
  - intros Hwhy.
    destruct (IsValid (NewNamespaceMetadata (dpNamespace dp))) eqn:Hvalid.
    + destruct Hwhy as [Hfalse | Hoff]; [discriminate|].
      apply String.eqb_neq in Hoff. rewrite Hoff.
      answers h. repeat split. repeat constructor.
    + answers h. repeat split. repeat constructor.
  - answers h. repeat split. repeat constructor.
  - split; reflexivity.
Qed.

(** X16. Past the validation of the required keys, the release sync
    records a [Created] event, against the release, exactly when the
    create answered without error, and none when the release already
    existed; the event names the commit id, or the branch when the
    commit id annotation is empty or absent, and the build source. *)
Theorem syncHandler_created_event :
  forall (S : Type) (h : Handler S) (s : S) (r : Controller)
         (key : string) (dp : Deployment),
    GetByKey (dpInf r) key = Found dp ->
    IsValid (NewNamespaceMetadata (dpNamespace dp)) = true ->
    index (dpAnnotations dp) "kolihub.io/build" = "true" ->
    validateRequiredKeys dp = None ->
    let o := run h (syncHandler r key) s in
    let a := index (dpAnnotations dp) in
    let ref := if String.eqb (a AnnotationGitCommitID) EmptyString
               then a AnnotationGitBranch else a AnnotationGitCommitID in
    exists cresp,
      releaseCreates (trace o) = [(dpNamespace dp, newRelease dp, cresp)] /\
      recorded (trace o)
        = match cresp with
          | None =>
              [(ObjRelease (newRelease dp), EventTypeNormal, "Created",
                Sprintf "Created release with revision '%s' from '%s'"
                  [ref; a AnnotationBuildSource])]
          | Some _ => []
          end.
Proof.
  intros S h s r key dp Hget Hvalid Hbuild Hkeys o a ref. subst o ref a.
  unfold syncHandler. rewrite Hget, Hvalid, Hbuild, Hkeys.
  simpl negb. cbv iota.
  assert (Hlen : forall t : string,
             (String.length t =? 0)%nat = String.eqb t EmptyString).
  { intros [|ch t]; reflexivity. }
  destruct (String.eqb (index (dpAnnotations dp) AnnotationAutoDeploy) "true");
    answers h; (eexists; split; [reflexivity|]);
    simpl; rewrite ?Hlen; reflexivity.
Qed.

(** Settle the parts of the call discipline on a computed trace. *)
Ltac release_discipline :=
  unfold trace; simpl;
  split; [lia|]; split; [lia|]; split;
  [ first [ intros Hp; congruence
          | intros _; eexists _, _, _; split; [reflexivity|]; auto ]
  | repeat split; reflexivity ].

(** X17. Whatever the cache holds and whatever the control plane
    answers, one release sync issues at most one release create and one
    patch, patches the deployment only after a create that succeeded or
    collided as already existing, and never creates claims, services or
    ingresses nor deletes pods. *)
Theorem syncHandler_release_discipline :
  forall (S : Type) (h : Handler S) (s : S) (r : Controller) (key : string),
    let o := run h (syncHandler r key) s in
    (length (releaseCreates (trace o)) <= 1)%nat /\
    (length (patches (trace o)) <= 1)%nat /\
    (patches (trace o) <> [] ->
     exists ns rel cresp,
       releaseCreates (trace o) = [(ns, rel, cresp)] /\
       (cresp = None \/ isAlreadyExists cresp = true)) /\
    pvcCreates (trace o) = [] /\ serviceCreates (trace o) = [] /\
    ingressCreates (trace o) = [] /\ deleteCollections (trace o) = [].
Proof.
  intros S h s r key o. subst o. unfold syncHandler.
  destruct (GetByKey (dpInf r) key) as [dp | | err].
  - destruct (IsValid (NewNamespaceMetadata (dpNamespace dp)));
      [|answers h; release_discipline].
    destruct (String.eqb (index (dpAnnotations dp) "kolihub.io/build") "true");
      [|answers h; release_discipline].
    simpl negb. cbv iota.
    destruct (validateRequiredKeys dp);
      [answers h; release_discipline|].
    destruct (String.eqb (index (dpAnnotations dp) AnnotationAutoDeploy) "true");
      answers h; release_discipline.
  - answers h. release_discipline.
  - release_discipline.
Qed.

(** X18. The release built from a deployment carries the correlation
    label, and beside it the revision label exactly when the commit id
    annotation parses as a SHA, with the short form of that SHA as its
    value; it carries no other label. *)
Theorem newRelease_labels :
  forall dp : Deployment,
    AnnotationGitRevision <> "kolihub.io/deploy" ->
    let labels := relLabels (newRelease dp) in
    labels !! "kolihub.io/deploy" = Some (dpName dp) /\
    labels !! AnnotationGitRevision
      = Short <$> NewSha (index (dpAnnotations dp) AnnotationGitCommitID) /\
    (forall key, key <> "kolihub.io/deploy" -> key <> AnnotationGitRevision ->
                 labels !! key = None).
Proof.
  intros dp Hne labels. subst labels. unfold newRelease. simpl.
  destruct (NewSha (index (dpAnnotations dp) AnnotationGitCommitID)) as [sha|];
    simpl.
  - split; [|split].
    + rewrite lookup_insert_ne by exact Hne. apply lookup_singleton_eq.
    + apply lookup_insert_eq.
    + intros key Hk1 Hk2.
      rewrite lookup_insert_ne by congruence.
      apply lookup_singleton_ne. congruence.
  - split; [|split].
    + apply lookup_singleton_eq.
    + apply lookup_singleton_ne. congruence.
    + intros key Hk1 Hk2. apply lookup_singleton_ne. congruence.
Qed.

End ReleaseSync.

(** ** The worker at shutdown *)

Section WorkerEdges.
Import TaskQueue.

(** X19. When the queue reports shutdown the worker closes its done
    channel and does nothing else, even if a key came along; when it
    hands out a nil item without shutdown the worker returns at once.
    In neither case is the sync function run or the item reported
    back with [Forget], [AddRateLimited] or [Done]. *)
Theorem processNextWorkItem_idle :
  forall (S : Type) (h : Handler S) (s s1 : S) (t : TaskQueue)
         (key : option string) (quit : bool),
    h _ QueueGet s = ((key, quit), s1) ->
    quit = true \/ key = None ->
    let o := run h (processNextWorkItem t) s in
    trace o
      = Ev QueueGet (key, quit)
        :: (if quit then [Ev CloseWorkerDone tt] else []) /\
    queueCalls (trace o) = [QGet key quit].
Proof.
  intros S h s s1 t key quit Hget Hidle o. subst o.
  unfold processNextWorkItem. simpl. rewrite Hget.
  destruct quit; simpl.
  - destruct (h unit CloseWorkerDone s1) as [[] s2]. split; reflexivity.
  - destruct Hidle as [Hq | ->]; [discriminate|]. split; reflexivity.
Qed.

End WorkerEdges.

(** ** Provisioning the custom resource definitions *)

Section Provisioning.
Context `{Decls}.
Import CRD.

(** The calls of a readiness poll: receives and reads. *)
Definition pollCall (R : Type) (c : Cmd R) : bool :=
  match c with
  | PollerReceive _ _ => true
  | CustomResourceDefinitionsGet _ => true
  | _ => false
  end.

Lemma WaitFor_calls (name : string) (interval timeout : Z) (n : nat) :
  callsOnly pollCall (WaitFor n interval timeout (crdReady name)).
Proof.
  induction n as [|n IH]; simpl.
  - split; [reflexivity|].
    intros [crd|err]; simpl; [|exact I].
    destruct (scanConditions (crdConditions crd)) as [ok [e|]]; simpl;
      [exact I|]. destruct ok; exact I.
  - split; [reflexivity|]. intros open. split; [reflexivity|].
    intros [crd|err]; simpl; [|exact I].
    destruct (scanConditions (crdConditions crd)) as [ok [e|]]; simpl;
      [exact I|]. destruct ok; [exact I|].
    destruct open; [exact IH | exact I].
Qed.

Lemma pollCall_no_create (t : list Event) :
  Forall (fun e => pollCall _ (evCmd e) = true) t -> crdCreates t = [].
Proof.
  induction 1 as [|[R c r] t Hc _ IH]; [reflexivity|].
  unfold crdCreates in *. destruct c; try discriminate Hc; simpl; exact IH.
Qed.

(** A poll creates nothing. *)
Lemma waitCRDReady_creates (S : Type) (h : Handler S) (s : S) (name : string) :
  crdCreates (trace (run h (waitCRDReady name) s)) = [].
Proof.
  apply pollCall_no_create.
  apply (callsOnly_run pollCall h (waitCRDReady name)).
  apply WaitFor_calls.
Qed.

(** The answers to a create that let [CreateCRD] go on: success, and
    the collision with a definition that exists already. *)
Definition accepted (err : option error) : Prop :=
  err = None \/ isAlreadyExists err = true.

(** The log line between a create and the poll of what it created. *)
Definition waiting (name : string) : Cmd unit :=
  Glog Info 0
    (Sprintf
       "Custom Resource Definiton '%s' provisioned, waiting to be ready ..."
       [name]).

Lemma accepted_test (err : option error) :
  negb (notNil err) || isAlreadyExists err = true <-> accepted err.
Proof.
  unfold accepted. destruct err as [e|]; simpl.
  - split; [intros He; right; exact He | intros [Hn | He]; [discriminate | exact He]].
  - split; [left; reflexivity | reflexivity].
Qed.

(** X20. [CreateCRD] declares the plans definition, then the releases
    definition, and nothing else; each create that is answered by
    success or "already exists" is followed by a log line and the
    readiness poll of the definition.  The run is made of these parts
    and ends at the first that fails: at the first create when it is
    refused, with its error; else at the first poll when that fails,
    with the error of the poll and without a second create; else at the
    second create when it is refused; else after the second poll, with
    its result.  So the releases definition is created only when the
    plans definition was accepted and its poll succeeded, a run returns
    no error only when both creates were accepted and both polls
    succeeded, and a create that is refused is the last call of the
    run. *)
Theorem CreateCRD_in_order :
  forall (S : Type) (h : Handler S) (s : S),
    let plan := newCRD (PlanResourceName, PlanResourceKind,
                        PlanResourcePlural) in
    let rel := newCRD (ReleaseResourceName, ReleaseResourceKind,
                       ReleaseResourcePlural) in
    let o := run h CreateCRD s in
    let creates := crdCreates (trace o) in
    let c1 := h _ (CustomResourceDefinitionsCreate plan) s in
    let w1 := run h (waitCRDReady PlanResourceName)
                (snd (h _ (waiting PlanResourceName) (snd c1))) in
    let c2 := h _ (CustomResourceDefinitionsCreate rel) (final w1) in
    let w2 := run h (waitCRDReady ReleaseResourceName)
                (snd (h _ (waiting ReleaseResourceName) (snd c2))) in
    let first := Ev (CustomResourceDefinitionsCreate plan) (fst c1)
                 :: Ev (waiting PlanResourceName) tt :: trace w1 in
    let second := Ev (CustomResourceDefinitionsCreate rel) (fst c2)
                  :: Ev (waiting ReleaseResourceName) tt :: trace w2 in
    (* the creates and their order *)
    (creates = [(plan, fst c1)] \/
     creates = [(plan, fst c1); (rel, fst c2)]) /\
    (map fst creates = [plan] \/ map fst creates = map newCRD resources) /\
    (* the run, part by part *)
    (~ accepted (fst c1) ->
     o = (fst c1, snd c1,
          [Ev (CustomResourceDefinitionsCreate plan) (fst c1)])) /\
    (accepted (fst c1) -> result w1 <> None ->
     o = (result w1, final w1, first)) /\
    (accepted (fst c1) -> result w1 = None -> ~ accepted (fst c2) ->
     o = (fst c2, snd c2,
          first ++ [Ev (CustomResourceDefinitionsCreate rel) (fst c2)])) /\
    (accepted (fst c1) -> result w1 = None -> accepted (fst c2) ->
     o = (result w2, final w2, first ++ second)) /\
    (* the second create comes only after the first poll succeeded *)
    (map fst creates = map newCRD resources ->
     accepted (fst c1) /\ result w1 = None /\
     exists rest,
       trace o = first
                 ++ Ev (CustomResourceDefinitionsCreate rel) (fst c2) :: rest) /\
    (* success *)
    (result o = None <->
     accepted (fst c1) /\ result w1 = None /\
     accepted (fst c2) /\ result w2 = None) /\
    (result o = None ->
     map fst creates = map newCRD resources /\
     Forall (fun c => snd c = None \/ isAlreadyExists (snd c) = true) creates) /\
    (* a refused create *)
    (forall crd e, last creates = Some (crd, Some e) ->
                   IsAlreadyExists e = false ->
                   result o = Some e /\
                   exists t, trace o
                             = t ++ [Ev (CustomResourceDefinitionsCreate crd)
                                       (Some e)]).
Proof.
  intros S h s plan rel o creates c1 w1 c2 w2 first second.
  subst second first w2 c2 w1 c1 creates o.
  unfold CreateCRD, resources. cbn [createAll map].
  fold plan. fold rel. clearbody plan rel. cbn [fst].
  fold (waiting PlanResourceName). fold (waiting ReleaseResourceName).
  remember (waitCRDReady PlanResourceName) as p1 eqn:Hp1.
  remember (waitCRDReady ReleaseResourceName) as p2 eqn:Hp2.
  assert (Hnc1 : forall st, crdCreates (trace (run h p1 st)) = []).
  { intros st. subst p1. apply waitCRDReady_creates. }
  assert (Hnc2 : forall st, crdCreates (trace (run h p2 st)) = []).
  { intros st. subst p2. apply waitCRDReady_creates. }
  clear Hp1 Hp2.
  simpl.
  destruct (h _ (CustomResourceDefinitionsCreate plan) s) as [a1 s1].
  cbn [fst snd].
  destruct (negb (notNil a1) || isAlreadyExists a1) eqn:Ha1.
  2:{ assert (Hno : ~ accepted a1).
      { rewrite <- accepted_test, Ha1. discriminate. }
      destruct a1 as [e1|]; [|discriminate]. simpl in Ha1. simpl.
      split; [left; reflexivity|]. split; [left; reflexivity|].
      split; [reflexivity|].
      split; [intros Ha; contradiction|].
      split; [intros Ha; contradiction|].
      split; [intros Ha; contradiction|].
      split; [discriminate|].
      split; [split; [discriminate | intros [Ha _]; contradiction]|].
      split; [discriminate|].
      intros crd e [= <- <-] _. split; [reflexivity|]. exists []. reflexivity. }
  assert (Hyes1 : accepted a1) by (apply accepted_test; exact Ha1).
  simpl. destruct (h unit (waiting PlanResourceName) s1) as [[] s2].
  cbn [snd]. rewrite run_bind.
  specialize (Hnc1 s2).
  destruct (run h p1 s2) as [[r1 s3] t1].
  unfold trace in Hnc1. cbn [snd fst] in Hnc1.
  unfold final, result, trace. cbn [fst snd].
  destruct r1 as [e1|].
  { simpl. rewrite app_nil_r. unfold crdCreates in *. simpl.
    rewrite Hnc1. simpl.
    split; [left; reflexivity|]. split; [left; reflexivity|].
    split; [intros Hno; contradiction|].
    split; [reflexivity|].
    split; [discriminate|].
    split; [discriminate|].
    split; [discriminate|].
    split; [split; [discriminate | intros (_ & Hr & _); discriminate]|].
    split; [discriminate|].
    intros crd e [= Hcrd Hc] Hae. subst a1. simpl in Ha1. congruence. }
  simpl.
  destruct (h _ (CustomResourceDefinitionsCreate rel) s3) as [a2 s4].
  cbn [fst snd].
  destruct (negb (notNil a2) || isAlreadyExists a2) eqn:Ha2.
  2:{ assert (Hno : ~ accepted a2).
      { rewrite <- accepted_test, Ha2. discriminate. }
      destruct a2 as [e2|]; [|discriminate]. simpl in Ha2. simpl.
      unfold crdCreates in *. simpl. rewrite omap_app, Hnc1. simpl.
      split; [right; reflexivity|]. split; [right; reflexivity|].
      split; [intros Hno1; contradiction|].
      split; [intros _ Hr; contradiction|].
      split; [reflexivity|].
      split; [intros _ _ Ha; contradiction|].
      split; [intros _; split; [exact Hyes1|]; split; [reflexivity|];
              exists []; reflexivity|].
      split; [split; [discriminate | intros (_ & _ & Ha & _); contradiction]|].
      split; [discriminate|].
      intros crd e [= <- <-] _. split; [reflexivity|].
      exists (Ev (CustomResourceDefinitionsCreate plan) a1
              :: Ev (waiting PlanResourceName) tt :: t1).
      reflexivity. }
  assert (Hyes2 : accepted a2) by (apply accepted_test; exact Ha2).
  simpl. destruct (h unit (waiting ReleaseResourceName) s4) as [[] s5].
  cbn [snd]. rewrite run_bind.
  specialize (Hnc2 s5).
  destruct (run h p2 s5) as [[r2 s6] t2].
  unfold trace in Hnc2. cbn [snd fst] in Hnc2.
  destruct r2 as [e2|]; simpl; rewrite app_nil_r;
    unfold crdCreates in *; simpl; rewrite omap_app, Hnc1; simpl;
    change (list_omap _ _ asCRDCreate t2) with (omap asCRDCreate t2);
    rewrite Hnc2.
  all: split; [right; reflexivity|]; split; [right; reflexivity|].
  all: split; [intros Hno1; contradiction|].
  all: split; [intros _ Hr; contradiction|].
  all: split; [intros _ _ Hno; contradiction|].
  all: split; [intros _ _ _; reflexivity|].
  all: split; [intros _; split; [exact Hyes1|]; split; [reflexivity|];
               eexists; reflexivity|].
  - split; [split; [discriminate | intros (_ & _ & _ & Hr); discriminate]|].
    split; [discriminate|].
    intros crd e [= Hcrd Hc] Hae. subst a2. simpl in Ha2. congruence.
  - split; [split; [intros _; repeat split; assumption | reflexivity]|].
    split.
    + intros _. split; [reflexivity|].
      constructor; [exact Hyes1 | constructor; [exact Hyes2 | constructor]].
    + intros crd e [= Hcrd Hc] Hae. subst a2. simpl in Ha2. congruence.
Qed.

End Provisioning.

Section ConditionOrder.
Import CRD.

(** X21. Within one read the order of the conditions decides: the scan
    stops at the first condition that is [Established] with status
    [True] or [NamesAccepted] with status [False], and what follows it
    in the list has no effect.  A list without such a condition leaves
    the poll going. *)
Theorem scanConditions_order :
  forall (pre rest : list CRDCondition) (cond : CRDCondition),
    Forall (fun c => ~ (condType c = Established /\ condStatus c = ConditionTrue)
                     /\ ~ (condType c = NamesAccepted
                           /\ condStatus c = ConditionFalse)) pre ->
    scanConditions pre = (false, None) /\
    (condType cond = Established -> condStatus cond = ConditionTrue ->
     scanConditions (pre ++ cond :: rest) = (true, None)) /\
    (condType cond = NamesAccepted -> condStatus cond = ConditionFalse ->
     scanConditions (pre ++ cond :: rest)
       = (false, Some (nameConflict (condReason cond)))).
Proof.
  intros pre rest cond Hpre.
  assert (Hskip : forall tail, scanConditions (pre ++ tail) = scanConditions tail).
  { intros tail. induction Hpre as [|c pre [Hne Hnn] _ IH]; [reflexivity|].
    simpl. destruct (condType c) eqn:Hty; destruct (condStatus c) eqn:Hst;
      try exact IH; exfalso; auto. }
  split; [|split].
  - rewrite <- (app_nil_r pre). rewrite Hskip. reflexivity.
  - intros Hty Hst. rewrite Hskip. simpl. now rewrite Hty, Hst.
  - intros Hty Hst. rewrite Hskip. simpl. rewrite Hty, Hst.
    unfold nameConflict, Errorf. now rewrite Sprintf_name_conflict.
Qed.

End ConditionOrder.

(** ** Runs on the sample deployment *)

Section MoreRuns.
Local Existing Instance Sample.decls.

(** [web] is deleted: its key is enqueued, and the sync of that key
    cleans up its pods. *)
Lemma deleteDeployment_then_cleanup_witness :
  let c := AppManagerController.mkController (H := Sample.decls)
             Sample.emptyStore (Sample.planStore []) "koli.io" in
  (dpNamespace Sample.web <> EmptyString /\
   hasByte "/"%char (dpNamespace Sample.web) = false /\
   hasByte "/"%char (dpName Sample.web) = false /\
   IsValid (NewNamespaceMetadata (dpNamespace Sample.web)) = true) /\
  exists key,
    queueCalls
      (trace (run Workqueue.handle
                (AppManagerEvents.deleteDeployment
                   TaskQueue.MetaNamespaceKeyFunc (fun _ => "web") Sample.web)
                (Workqueue.mkQueue [] ∅ ∅ ∅ [] false)))
      = [QAdd key] /\
    (GetByKey (AppManagerController.dpInf c) key = NotFound ->
     exists resp,
       deleteCollections
         (trace (run Fake.handle (AppManagerController.syncHandler c key)
                   Fake.empty))
         = [("prod-acme-koli", "kolihub.io/app=web", resp)] /\
       result (run Fake.handle (AppManagerController.syncHandler c key)
                 Fake.empty) = None).
Proof.
  intros c.
  split; [repeat split; try discriminate; reflexivity|].
  exact (deleteDeployment_then_cleanup (H := Sample.decls) (fun _ => "web")
           _ Workqueue.handle (Workqueue.mkQueue [] ∅ ∅ ∅ [] false)
           _ Fake.handle Fake.empty c Sample.web
           ltac:(discriminate) eq_refl eq_refl eq_refl).
Defined.

(** The key [web], without namespace, absent from the cache. *)
Lemma syncHandler_absent_odd_key_witness :
  let c := AppManagerController.mkController (H := Sample.decls)
             Sample.emptyStore (Sample.planStore []) "koli.io" in
  let o := run Fake.handle (AppManagerController.syncHandler c "web")
             Fake.empty in
  (GetByKey (AppManagerController.dpInf c) "web" = NotFound /\
   length (Split "web" "/"%char) <> 2%nat) /\
  result o = None /\ length (trace o) = 1%nat.
Proof.
  intros c o.
  split; [split; [reflexivity | discriminate]|].
  destruct (syncHandler_absent_odd_key (H := Sample.decls) _ Fake.handle
              Fake.empty c "web" eq_refl ltac:(discriminate)) as [Hres Htrace].
  split; [exact Hres|]. fold o in Htrace. now rewrite Htrace.
Defined.

(** [web] in a namespace that is not the platform's. *)
Definition webElsewhere : Deployment :=
  {| dpNamespace := "default";
     dpName := "web";
     dpUID := "7f0c";
     dpResourceVersion := "41";
     dpGeneration := 1;
     dpObservedGeneration := 1;
     dpLabels := dpLabels Sample.web;
     dpAnnotations := dpAnnotations Sample.web;
     dpDeletionTimestamp := None;
     dpContainers := [] |}.

Lemma syncHandler_stops_early_witness :
  let c := AppManagerController.mkController (H := Sample.decls)
             (Sample.storeOf "default/web" webElsewhere)
             (Sample.planStore [Sample.gold]) "koli.io" in
  let o := run Fake.handle (AppManagerController.syncHandler c "default/web")
             Fake.empty in
  (GetByKey (AppManagerController.dpInf c) "default/web" = Found webElsewhere /\
   Valid (GetNamespaceMetadata webElsewhere) = false) /\
  length (trace o) = 1%nat /\ result o = None /\ final o = Fake.empty.
Proof.
  intros c o.
  split; [split; reflexivity|].
  destruct (syncHandler_stops_early (H := Sample.decls) _ Fake.handle
              Fake.empty c "default/web"
              (or_intror (ex_intro _ webElsewhere
                            (conj eq_refl (or_intror eq_refl)))))
    as (Hlen & _ & Hres).
  split; [exact Hlen|]. split; [exact Hres | reflexivity].
Defined.

(** A controller without default domain sets up no route. *)
Lemma addDefaultRoute_skipped_witness :
  let c := AppManagerController.mkController (H := Sample.decls)
             (Sample.storeOf Sample.webKey Sample.web)
             (Sample.planStore [Sample.gold]) EmptyString in
  AppManagerController.defaultDomain c = EmptyString /\
  run Fake.handle (AppManagerController.addDefaultRoute c Sample.web)
    Fake.empty = (None, Fake.empty, []).
Proof.
  intros c. split; [reflexivity|].
  exact (addDefaultRoute_skipped (H := Sample.decls) _ Fake.handle Fake.empty
           c Sample.web (or_introl eq_refl)).
Defined.

(** The route of [web] under the domain [koli.io], on an empty fake
    control plane. *)
Lemma addDefaultRoute_service_first_witness :
  let c := AppManagerController.mkController (H := Sample.decls)
             (Sample.storeOf Sample.webKey Sample.web)
             (Sample.planStore [Sample.gold]) "koli.io" in
  let o := run Fake.handle (AppManagerController.addDefaultRoute c Sample.web)
             Fake.empty in
  (AppManagerController.defaultDomain c <> EmptyString /\
   dpLabels Sample.web !! "kolihub.io/type" = Some "app") /\
  exists ing iresp,
    ingressCreates (trace o) = [("prod-acme-koli", ing, iresp)] /\
    map irHost (ingRules ing) = ["web-prod-acme-koli.koli.io"] /\
    result o = iresp.
Proof.
  intros c o.
  split; [split; [discriminate | vm_compute; reflexivity]|].
  destruct (addDefaultRoute_service_first (H := Sample.decls) _ Fake.handle
              Fake.empty c Sample.web ltac:(discriminate)
              ltac:(vm_compute; reflexivity))
    as (svc & sresp & Hsvc & _ & _ & _ & Hrest).
  fold o in Hsvc, Hrest.
  assert (Hs : sresp = None) by (vm_compute in Hsvc; congruence).
  subst sresp. simpl in Hrest.
  destruct Hrest as (ing & iresp & Hing & _ & _ & _ & Hhost & _ & Hres).
  exists ing, iresp. split; [exact Hing|]. split; [exact Hhost | exact Hres].
Defined.

(** [web] without the setup-storage marker. *)
Definition webProvisioned : Deployment :=
  withAnnotation "kolihub.io/setup-storage" "false" Sample.web.

Lemma syncHandler_without_storage_request_witness :
  let c := AppManagerController.mkController (H := Sample.decls)
             (Sample.storeOf Sample.webKey webProvisioned)
             (Sample.planStore [Sample.gold]) "koli.io" in
  let o := run Fake.handle (AppManagerController.syncHandler c Sample.webKey)
             Fake.empty in
  (GetByKey (AppManagerController.dpInf c) Sample.webKey = Found webProvisioned /\
   Valid (GetNamespaceMetadata webProvisioned) = true /\
   HasSetupPVCAnnotation webProvisioned = false) /\
  result o = None /\ pvcCreates (trace o) = [] /\ patches (trace o) = [].
Proof.
  intros c o.
  split; [repeat split; vm_compute; reflexivity|].
  assert (Hoff : HasSetupPVCAnnotation webProvisioned = false)
    by (vm_compute; reflexivity).
  destruct (syncHandler_without_storage_request (H := Sample.decls) _
              Fake.handle Fake.empty c Sample.webKey webProvisioned
              ltac:(vm_compute; reflexivity) eq_refl
              ltac:(vm_compute; reflexivity) (or_intror Hoff))
    as (Hres & Hpvc & Hpatch & _).
  auto.
Defined.

(** The sync of [web] against a control plane that refuses the claim
    for lack of quota. *)
Lemma syncHandler_claim_accounting_witness :
  let c := AppManagerController.mkController (H := Sample.decls)
             (Sample.storeOf Sample.webKey Sample.web)
             (Sample.planStore [Sample.gold]) "koli.io" in
  let quota := mkError false "exceeded quota" in
  let h := Scripted.stateless
             (fun R (cmd : Cmd R) =>
                match cmd in Cmd R return R with
                | PersistentVolumeClaimsCreate _ _ => Some quota
                | cmd' => Scripted.ok cmd'
                end) in
  let o := run h (AppManagerController.syncHandler c Sample.webKey) tt in
  (GetByKey (AppManagerController.dpInf c) Sample.webKey = Found Sample.web /\
   GetStoragePlan Sample.web = ("gold", true) /\
   AppManagerController.findPlan
     (ListAll (AppManagerController.planInf c)) "gold" = Some Sample.gold) /\
  incs (trace o) = [pvcFailed] /\
  map (fun r => snd (fst r)) (recorded (trace o)) = ["ProvisionError"] /\
  patches (trace o) = [].
Proof.
  intros c quota h o.
  split; [repeat split; vm_compute; reflexivity|].
  destruct (syncHandler_claim_accounting (H := Sample.decls) _ h tt c
              Sample.webKey Sample.web "gold" Sample.gold
              ltac:(vm_compute; reflexivity) eq_refl
              ltac:(vm_compute; reflexivity) ltac:(vm_compute; reflexivity)
              ltac:(vm_compute; reflexivity) ltac:(vm_compute; reflexivity))
    as (cresp & Hc & Hrest).
  fold o in Hc, Hrest.
  assert (Hq : cresp = Some quota)
    by (vm_compute in Hc; vm_compute; congruence).
  subst cresp. simpl in Hrest. destruct Hrest as (Hincs & Hrec & _ & Hpatch).
  rewrite Hincs, Hrec, Hpatch. auto.
Defined.

(** The release sync of [web], which has a branch and no commit id, on
    an empty fake control plane. *)
Lemma syncHandler_created_event_witness :
  let r := ReleaseController.mkController
             Sample.emptyStore (Sample.storeOf Sample.webKey Sample.web) in
  let o := run Fake.handle (ReleaseController.syncHandler r Sample.webKey)
             Fake.empty in
  (GetByKey (ReleaseController.dpInf r) Sample.webKey = Found Sample.web /\
   IsValid (NewNamespaceMetadata "prod-acme-koli") = true /\
   index (dpAnnotations Sample.web) "kolihub.io/build" = "true" /\
   ReleaseController.validateRequiredKeys Sample.web = None) /\
  map snd (recorded (trace o))
    = ["Created release with revision 'master' from ''"].
Proof.
  intros r o.
  split; [repeat split; vm_compute; reflexivity|].
  destruct (syncHandler_created_event (H := Sample.decls) _ Fake.handle
              Fake.empty r Sample.webKey Sample.web
              ltac:(vm_compute; reflexivity) ltac:(vm_compute; reflexivity)
              ltac:(vm_compute; reflexivity) ltac:(vm_compute; reflexivity))
    as (cresp & Hc & Hrec).
  fold o in Hc, Hrec.
  assert (Hn : cresp = None) by (vm_compute in Hc; congruence).
  subst cresp. rewrite Hrec. vm_compute. reflexivity.
Defined.

(** The labels of the release built from [web] with a commit id. *)
Lemma newRelease_labels_witness :
  let dp := withAnnotation "kolihub.io/gitcommitid"
              "9fceb02d0ae598e95dc970b74767f19372d61af8" Sample.web in
  let labels := relLabels (ReleaseController.newRelease dp) in
  AnnotationGitRevision <> "kolihub.io/deploy" /\
  labels !! "kolihub.io/deploy" = Some "web" /\
  labels !! "kolihub.io/gitrevision" = Some "9fceb02" /\
  labels !! "kolihub.io/type" = None.
Proof.
  intros dp labels.
  split; [discriminate|].
  destruct (newRelease_labels (H := Sample.decls) dp ltac:(discriminate))
    as (Hdeploy & Hrev & Hother).
  split; [exact Hdeploy|]. split.
  - etransitivity; [exact Hrev|]. vm_compute. reflexivity.
  - apply Hother; discriminate.
Defined.

(** The worker at shutdown, with the release sync registered. *)
Lemma processNextWorkItem_idle_witness :
  let r := ReleaseController.mkController
             Sample.emptyStore (Sample.storeOf Sample.webKey Sample.web) in
  let t := TaskQueue.mkTaskQueue (ReleaseController.syncHandler r) in
  let q := Workqueue.mkQueue [] ∅ ∅ ∅ [] true in
  let o := run Workqueue.handle (TaskQueue.processNextWorkItem t) q in
  Workqueue.handle QueueGet q = ((None, true), q) /\
  trace o = [Ev QueueGet (None, true); Ev CloseWorkerDone tt] /\
  queueCalls (trace o) = [QGet None true].
Proof.
  intros r t q o. split; [reflexivity|].
  exact (processNextWorkItem_idle _ Workqueue.handle q q t None true
           eq_refl (or_introl eq_refl)).
Defined.

(** One read that shows a name conflict behind an established
    condition counts as ready; the other way round, as a conflict. *)
Lemma scanConditions_order_witness :
  Forall (fun c => ~ (condType c = Established /\ condStatus c = ConditionTrue)
                   /\ ~ (condType c = NamesAccepted
                         /\ condStatus c = ConditionFalse))
    [Sample.namesAccepted] /\
  CRD.scanConditions
    [Sample.namesAccepted; Sample.established; Sample.namesRejected]
    = (true, None) /\
  CRD.scanConditions
    [Sample.namesAccepted; Sample.namesRejected; Sample.established]
    = (false, Some (CRD.nameConflict "KindConflict")).
Proof.
  assert (Hpre : Forall
            (fun c => ~ (condType c = Established /\ condStatus c = ConditionTrue)
                      /\ ~ (condType c = NamesAccepted
                            /\ condStatus c = ConditionFalse))
            [Sample.namesAccepted]).
  { constructor; [|constructor]. split; intros [H1 H2]; discriminate. }
  split; [exact Hpre|]. split.
  - exact (proj1 (proj2 (scanConditions_order [Sample.namesAccepted]
                           [Sample.namesRejected] Sample.established Hpre))
             eq_refl eq_refl).
  - exact (proj2 (proj2 (scanConditions_order [Sample.namesAccepted]
                           [Sample.established] Sample.namesRejected Hpre))
             eq_refl eq_refl).
Defined.

End MoreRuns.
